(** * QVANTO data catalog: lineage graph and fraud scoring

    A shallow embedding of [app.py]: the SQLAlchemy tables become records,
    the SQLite session becomes an explicit [Database] threaded through
    every handler, Python exceptions become the [Raise] branch of a small
    error monad, and Python floats are IEEE binary64 values (Rocq's
    primitive floats), so that the weights 50.0, 25.0, 5.0, 10.0 and the
    threshold 60.0 are the very numbers the program adds and compares.

    Modelling boundary.
    - [add_lineage], [get_lineage], [delete_asset] and [score_claim] are
      the decorated function bodies, so a statement about them is about an
      authorised call; the API-key check ([require_view], [require_edit])
      and the decorated endpoints are modelled apart, on the whole
      [Catalog].
    - [update_asset] is not modelled: what replacing a tag collection
      stores is decided inside the ORM's unit of work.
    - A request body is a JSON object whose fields, when present and not
      [null], carry the JSON type the handler coerces them to (numbers for
      [amount] and [prior_claims], integers for asset ids, strings
      elsewhere).  [field] distinguishes an absent key from an explicit
      [null] because [dict.get(key, default)] does.
    - Text is ASCII: [lower] and [strip] follow [str.lower] and [str.strip]
      on code points below 128 and leave other bytes alone.
    - The store is SQLite as [create_all] sets it up from the declared
      columns: integer primary keys are allocated as one more than the
      largest key, [unique] and [nullable=False] are enforced, foreign keys
      are declared but not enforced (SQLite's default), no row is removed
      unless a handler deletes it, and an integer outside 64 bits raises
      [OverflowError] when a query binds it. *)

From Stdlib Require Import ZArith List String Ascii Bool Lia.
From Stdlib Require Import PrimFloat FloatOps SpecFloat.
From stdpp Require Import base list gmap strings sorting.

Local Open Scope Z_scope.
Local Open Scope string_scope.
Local Open Scope list_scope.

(** ** Python values and builtins used by the handlers *)

Module Py.

(** The exceptions the handlers can meet; all derive from [Exception]. *)
Inductive exn : Type :=
| TypeError
| ValueError
| OverflowError
| IntegrityError.

Inductive result (A : Type) : Type :=
| Ok (a : A)
| Raise (e : exn).
Arguments Ok {A} a.
Arguments Raise {A} e.

Definition bind {A B : Type} (m : result A) (k : A -> result B) : result B :=
  match m with
  | Ok a => k a
  | Raise e => Raise e
  end.

(** What a key of the request dictionary holds. *)
Inductive field (T : Type) : Type :=
| Absent
| Null
| Given (v : T).
Arguments Absent {T}.
Arguments Null {T}.
Arguments Given {T} v.

(** [data.get(key)]: [None] for an absent key as for an explicit null. *)
Definition get {T : Type} (f : field T) : option T :=
  match f with
  | Given v => Some v
  | Absent | Null => None
  end.

(** [data.get(key, default)]: the default replaces an absent key only. *)
Definition get_default {T : Type} (f : field T) (default : T) : option T :=
  match f with
  | Absent => Some default
  | Null => None
  | Given v => Some v
  end.

(** A JSON number as Python decodes it. *)
Inductive number : Type :=
| NInt (z : Z)
| NFloat (f : float).

(** [float(int)]: round to nearest, ties to even; [OverflowError] when
    the integer is beyond the largest finite double. *)
Definition float_of_int (z : Z) : result float :=
  let f := SF2Prim (binary_normalize prec emax z 0 false) in
  if is_infinity f then Raise OverflowError else Ok f.

(** [int(float)]: truncation towards zero; [ValueError] on NaN and
    [OverflowError] on an infinity. *)
Definition int_of_float (f : float) : result Z :=
  match Prim2SF f with
  | S754_nan => Raise ValueError
  | S754_infinity _ => Raise OverflowError
  | S754_zero _ => Ok 0
  | S754_finite s m e => Ok (cond_Zopp s (Z.shiftl (Z.pos m) e))
  end.

(** [float(x)] for [x] a number or [None]. *)
Definition float (x : option number) : result PrimFloat.float :=
  match x with
  | None => Raise TypeError
  | Some (NInt z) => float_of_int z
  | Some (NFloat f) => Ok f
  end.

(** [int(x)] for [x] a number or [None]. *)
Definition int (x : option number) : result Z :=
  match x with
  | None => Raise TypeError
  | Some (NInt z) => Ok z
  | Some (NFloat f) => int_of_float f
  end.

(** [x or ""] for [x] a string or [None]: both [None] and the empty
    string are falsy. *)
Definition or_empty (x : option string) : string :=
  match x with
  | None => ""
  | Some s => s
  end.

Definition lower_ascii (c : ascii) : ascii :=
  let n := N_of_ascii c in
  if ((65 <=? n) && (n <=? 90))%N then ascii_of_N (n + 32) else c.

(** [str.lower]. *)
Fixpoint lower (s : string) : string :=
  match s with
  | EmptyString => EmptyString
  | String c rest => String (lower_ascii c) (lower rest)
  end.

(** [str.isspace] on one character: tab, line feed, vertical tab, form
    feed, carriage return, the four separators 28 to 31, and space. *)
Definition isspace (c : ascii) : bool :=
  let n := N_of_ascii c in
  (((9 <=? n) && (n <=? 13)) || ((28 <=? n) && (n <=? 32)))%N.

Fixpoint lstrip (s : string) : string :=
  match s with
  | EmptyString => EmptyString
  | String c rest => if isspace c then lstrip rest else s
  end.

Fixpoint rstrip (s : string) : string :=
  match s with
  | EmptyString => EmptyString
  | String c rest =>
      match rstrip rest with
      | EmptyString => if isspace c then EmptyString else String c EmptyString
      | kept => String c kept
      end
  end.

(** [str.strip] with no argument. *)
Definition strip (s : string) : string := lstrip (rstrip s).

(** [min(a, b)] on floats: the first argument unless the second is
    strictly smaller. *)
Definition min (a b : PrimFloat.float) : PrimFloat.float :=
  if (b <? a)%float then b else a.

(** [not x] for [x] an integer or [None]. *)
Definition falsy (x : option Z) : bool :=
  match x with
  | None => true
  | Some z => Z.eqb z 0
  end.

End Py.

Notation "x <- m ;; k" := (Py.bind m (fun x => k))
  (at level 100, m at next level, right associativity, only parsing).

(** ** Database models *)

Module Asset.
Record t : Type := mk {
  id : Z;
  name : string;
  type : string;
  description : string;
  created_at : string;  (* kept in the ISO text [asset_to_dict] emits *)
  tags : list string    (* names of the rows reached through [asset_tags] *)
}.
End Asset.

Module Lineage.
Record t : Type := mk {
  id : Z;
  src_asset_id : Z;
  dst_asset_id : Z;
  relation : string
}.
End Lineage.

(** A [Claim] object.  [id], [fraud_score] and [fraud_label] are [None]
    until the session flushes the object or the handler assigns them;
    [claim_number] and [policy_number] are [None] when the request gave an
    explicit null.  [created_at] is filled by the store and read by no
    handler, so it is left out. *)
Module Claim.
Record t : Type := mk {
  id : option Z;
  claim_number : option string;
  policy_number : option string;
  amount : float;
  channel : string;
  city : string;
  prior_claims : Z;
  fraud_score : option float;
  fraud_label : option string
}.

Definition set_fraud_score (c : t) (v : float) : t :=
  mk (id c) (claim_number c) (policy_number c) (amount c) (channel c) (city c)
     (prior_claims c) (Some v) (fraud_label c).

Definition set_fraud_label (c : t) (v : string) : t :=
  mk (id c) (claim_number c) (policy_number c) (amount c) (channel c) (city c)
     (prior_claims c) (fraud_score c) (Some v).
End Claim.

(** The tables the lineage and scoring handlers touch, rows in rowid
    order. *)
Record Database : Type := mkDatabase {
  assets : list Asset.t;
  lineage : list Lineage.t;
  claims : list Claim.t
}.

Definition empty_db : Database := mkDatabase [] [] [].

(** The key SQLite gives a new row of an [INTEGER PRIMARY KEY] table: 1 in
    an empty table, else one more than the largest key in use. *)
Definition next_id (ids : list Z) : Z :=
  match ids with
  | [] => 1
  | i :: rest => 1 + foldr Z.max i rest
  end.

(** SQLite integers have 64 bits. *)
Definition int64 (z : Z) : bool :=
  (Z.leb (- 2 ^ 63) z && Z.ltb z (2 ^ 63))%bool.

(** Whether an integer can be bound to a statement that compares it with
    a column.  An integer outside the 64 bits raises [OverflowError] when
    it is bound.  Every integer a column holds went through that binding;
    the tables here are lists over [Z], so an integer the column holds is
    taken to bind as well. *)
Definition bindable (column : list Z) (k : Z) : bool :=
  (int64 k || bool_decide (k ∈ column))%bool.

(** The first asset row with the key. *)
Definition query_asset (db : Database) (key : Z) : option Asset.t :=
  List.find (fun a => Z.eqb (Asset.id a) key) (assets db).

(** [db.query(Asset).get(key)]: the row, [None], or the [OverflowError]
    of a key that cannot be bound. *)
Definition asset_get (db : Database) (key : Z) : Py.result (option Asset.t) :=
  if bindable (map Asset.id (assets db)) key
  then Py.Ok (query_asset db key)
  else Py.Raise Py.OverflowError.

(** [db.add(asset); db.commit()] for a new asset. *)
Definition add_asset (db : Database) (name type description now : string)
    (tags : list string) : Database :=
  let a := Asset.mk (next_id (map Asset.id (assets db))) name type description now tags in
  mkDatabase (assets db ++ [a]) (lineage db) (claims db).

(** [db.add(edge); db.commit()]: the row is appended under a fresh key,
    which is returned as [edge.id]. *)
Definition add_edge (db : Database) (src dst : Z) (relation : string)
    : Database * Z :=
  let k := next_id (map Lineage.id (lineage db)) in
  (mkDatabase (assets db) (lineage db ++ [Lineage.mk k src dst relation]) (claims db), k).

(** The row a flushed claim becomes: a fresh key, and the column defaults
    for what the object left unset. *)
Definition stored_claim (db : Database) (c : Claim.t) : Claim.t :=
  Claim.mk (Some (next_id (omap Claim.id (claims db))))
           (Claim.claim_number c) (Claim.policy_number c) (Claim.amount c)
           (Claim.channel c) (Claim.city c) (Claim.prior_claims c)
           (Some (default 0%float (Claim.fraud_score c)))
           (Some (default "OK" (Claim.fraud_label c))).

(** [db.add(claim); db.commit()].  The insert is refused when a
    [nullable=False] column would hold NULL (SQLite stores a NaN as NULL),
    when [prior_claims] does not fit SQLite's 64-bit integer, or when
    [claim_number], declared [unique], is already stored.  On success the
    object is refreshed from its row. *)
Definition add_claim (db : Database) (c : Claim.t) : Py.result (Database * Claim.t) :=
  match Claim.claim_number c, Claim.policy_number c with
  | Some number, Some _ =>
      if negb (int64 (Claim.prior_claims c)) then Py.Raise Py.OverflowError
      else if is_nan (Claim.amount c) then Py.Raise Py.IntegrityError
      else if bool_decide (Some number ∈ map Claim.claim_number (claims db))
      then Py.Raise Py.IntegrityError
      else
        let row := stored_claim db c in
        Py.Ok (mkDatabase (assets db) (lineage db) (claims db ++ [row]), row)
  | _, _ => Py.Raise Py.IntegrityError
  end.

(** ** Seed data *)

(** [seed_demo], on the three tables of the model; [now] is the value of
    [datetime.utcnow] at the time of the call.  A refused insert would
    abort the start-up; on the empty tables it is run against, none is. *)
Definition seed_demo (now : string) (db : Database) : Database :=
  let db :=
    match assets db with
    | _ :: _ => db
    | [] =>
        let db := add_asset db "Policy_Master" "policy" "Master policy dataset" now ["PII"] in
        let db := add_asset db "Claim_Intake_2025" "claim" "Raw claim intake" now [] in
        let db := add_asset db "Reserve_Model_v1" "reserve_model" "Chain-ladder outputs" now [] in
        match map Asset.id (assets db) with
        | [policy; claim; reserve] =>
            let db := fst (add_edge db policy claim "feeds") in
            fst (add_edge db claim reserve "drives")
        | _ => db
        end
    end in
  match claims db with
  | _ :: _ => db
  | [] =>
      let c1 := Claim.mk None (Some "C-1001") (Some "P-9001") 12000%float "online"
                         "Chennai" 0 (Some 12%float) (Some "OK") in
      let c2 := Claim.mk None (Some "C-1002") (Some "P-9002") 450000%float "online"
                         "Unknown" 3 (Some 78%float) (Some "SUSPICIOUS") in
      match add_claim db c1 with
      | Py.Ok (db1, _) =>
          match add_claim db1 c2 with
          | Py.Ok (db2, _) => db2
          | Py.Raise _ => db
          end
      | Py.Raise _ => db
      end
  end.

(** ** Responses *)

(** [asset_to_dict]'s result. *)
Module AssetDict.
Record t : Type := mk {
  id : Z;
  name : string;
  type : string;
  description : string;
  created_at : string;
  tags : list string
}.
End AssetDict.

(** One element of the ["edges"] list of a lineage response. *)
Module Edge.
Record t : Type := mk {
  id : Z;
  source : Z;
  target : Z;
  relation : string
}.
End Edge.

(** The JSON bodies the modelled handlers produce. *)
Inductive Body : Type :=
| Error (message : string)
| ErrorOf (e : Py.exn)            (* [{"error": str(e)}] *)
| EdgeCreated (id : Z)            (* [{"id": id, "message": "Edge created"}] *)
| Deleted                         (* [{"status": "deleted"}] *)
| Uncaught (e : Py.exn)           (* no [except] clause: the server's own 500 *)
| Neighborhood (nodes : list AssetDict.t) (edges : list Edge.t)
| Scored (claim_number fraud_label : option string)
         (fraud_score : option float) (reasons : list string).

(** A body and its HTTP status. *)
Definition Response : Type := Body * Z.

Definition asset_to_dict (a : Asset.t) : AssetDict.t :=
  AssetDict.mk (Asset.id a) (Asset.name a) (Asset.type a) (Asset.description a)
               (Asset.created_at a) (Asset.tags a).

(** ** Asset deletion *)

(** [delete_asset]: [db.delete(a)] removes the asset row (and its
    [asset_tags] rows, which live inside the record here); nothing else is
    issued against the other tables.  The handler has no [except] clause:
    an error of the lookup surfaces as the server's 500. *)
Definition delete_asset (db : Database) (asset_id : Z) : Response * Database :=
  match asset_get db asset_id with
  | Py.Raise e => ((Uncaught e, 500), db)
  | Py.Ok None => ((Error "Not found", 404), db)
  | Py.Ok (Some a) =>
      ((Deleted, 200),
       mkDatabase (filter (fun x => Asset.id x ≠ Asset.id a) (assets db))
                  (lineage db) (claims db))
  end.

(** ** Lineage *)

Module LineageRequest.
Record t : Type := mk {
  src_asset_id : Py.field Z;
  dst_asset_id : Py.field Z;
  relation : option string   (* [None]: the key is absent *)
}.
End LineageRequest.

Definition missing_ids : Response :=
  (Error "src_asset_id and dst_asset_id are required and must be integers", 400).

Definition add_lineage (db : Database) (data : LineageRequest.t) : Response * Database :=
  let src_id := Py.get (LineageRequest.src_asset_id data) in
  let dst_id := Py.get (LineageRequest.dst_asset_id data) in
  if (Py.falsy src_id || Py.falsy dst_id)%bool then (missing_ids, db)
  else
    match src_id, dst_id with
    | Some s, Some d =>
        let attempt :=
          src <- asset_get db s ;;
          dst <- asset_get db d ;;
          match src, dst with
          | Some _, Some _ =>
              let '(db', k) :=
                add_edge db s d (default "derives" (LineageRequest.relation data)) in
              Py.Ok ((EdgeCreated k, 201), db')
          | _, _ => Py.Ok ((Error "One or both asset IDs do not exist", 404), db)
          end in
        match attempt with
        | Py.Ok out => out
        | Py.Raise e => ((ErrorOf e, 500), db)  (* [db.rollback()] *)
        end
    | _, _ => (missing_ids, db)  (* not reached: [None] is falsy *)
    end.

(** A dict comprehension over key/value pairs: a key seen again keeps its
    place and takes the later value. *)
Fixpoint dict_set {V : Type} (k : Z) (v : V) (d : list (Z * V)) : list (Z * V) :=
  match d with
  | [] => [(k, v)]
  | (k', v') :: rest =>
      if Z.eqb k' k then (k', v) :: rest else (k', v') :: dict_set k v rest
  end.

Definition dict_update {V : Type} (d pairs : list (Z * V)) : list (Z * V) :=
  fold_left (fun d kv => dict_set (fst kv) (snd kv) d) pairs d.

Definition dict_of {V : Type} (pairs : list (Z * V)) : list (Z * V) :=
  dict_update [] pairs.

Definition dict_values {V : Type} (d : list (Z * V)) : list V := map snd d.

Definition edge_to_dict (e : Lineage.t) : Edge.t :=
  Edge.mk (Lineage.id e) (Lineage.src_asset_id e) (Lineage.dst_asset_id e)
          (Lineage.relation e).

Definition outgoing_of (db : Database) (asset_id : Z) : list Lineage.t :=
  filter (fun e => Lineage.src_asset_id e = asset_id) (lineage db).

Definition incoming_of (db : Database) (asset_id : Z) : list Lineage.t :=
  filter (fun e => Lineage.dst_asset_id e = asset_id) (lineage db).

Definition node_ids_of (asset_id : Z) (outgoing incoming : list Lineage.t) : gset Z :=
  list_to_set ([asset_id] ++ map Lineage.dst_asset_id outgoing
                          ++ map Lineage.src_asset_id incoming).

(** The body of [get_lineage] once its queries run. *)
Definition neighborhood (db : Database) (asset_id : Z) : Response :=
  let outgoing := outgoing_of db asset_id in
  let incoming := incoming_of db asset_id in
  let node_ids := node_ids_of asset_id outgoing incoming in
  let nodes :=
    dict_of (map (fun a => (Asset.id a, asset_to_dict a))
                 (filter (fun a => Asset.id a ∈ node_ids) (assets db))) in
  let edges := map edge_to_dict (outgoing ++ incoming) in
  (Neighborhood (dict_values nodes) edges, 200).

(** [get_lineage].  The two filters bind [asset_id] against the endpoint
    columns; the handler has no [except] clause, so an id that cannot be
    bound surfaces as the server's 500. *)
Definition get_lineage (db : Database) (asset_id : Z) : Response :=
  if bindable (map Lineage.src_asset_id (lineage db)
               ++ map Lineage.dst_asset_id (lineage db)) asset_id
  then neighborhood db asset_id
  else (Uncaught Py.OverflowError, 500).

(** The two lists of a lineage response. *)
Definition nodes_of (r : Response) : list AssetDict.t :=
  match fst r with
  | Neighborhood nodes _ => nodes
  | _ => []
  end.

Definition edges_of (r : Response) : list Edge.t :=
  match fst r with
  | Neighborhood _ edges => edges
  | _ => []
  end.

(** ** Fraud scoring *)

(** A rule: a predicate that may raise, a weight and a reason. *)
Definition Rule : Type := (Claim.t -> Py.result bool) * float * string.

Definition unknown_cities : gset string := {[ "unknown"; "na"; "" ]}.

Definition RULES : list Rule :=
  [ (fun c => Py.Ok (300000 <? Claim.amount c)%float, 50%float,
     "High claim amount > 300k");
    (fun c => Py.Ok (Z.leb 3 (Claim.prior_claims c)), 25%float,
     "Three or more prior claims");
    (fun c => Py.Ok (bool_decide (Claim.channel c = "online")), 5%float,
     "Online submission");
    (fun c => Py.Ok (bool_decide (Py.lower (Claim.city c) ∈ unknown_cities)), 10%float,
     "Missing/unknown city") ].

Definition THRESHOLD : float := 60%float.

(** The rule loop of [score_claim], from the point where [score] and
    [reasons] have the given values: a predicate that raises is passed
    over. *)
Fixpoint apply_rules (rules : list Rule) (claim : Claim.t)
    (score : float) (reasons : list string) : float * list string :=
  match rules with
  | [] => (score, reasons)
  | (rule, weight, note) :: rest =>
      match rule claim with
      | Py.Ok true => apply_rules rest claim (score + weight)%float (reasons ++ [note])
      | Py.Ok false | Py.Raise _ => apply_rules rest claim score reasons
      end
  end.

Module ScoreRequest.
Record t : Type := mk {
  amount : Py.field Py.number;
  prior_claims : Py.field Py.number;
  channel : Py.field string;
  city : Py.field string;
  claim_number : Py.field string;
  policy_number : Py.field string
}.
End ScoreRequest.

(** Lines 340 to 353: the coercions and the temporary [Claim] object. *)
Definition parse_claim (data : ScoreRequest.t) : Py.result Claim.t :=
  amount <- Py.float (Py.get_default (ScoreRequest.amount data) (Py.NInt 0)) ;;
  prior_claims <- Py.int (Py.get_default (ScoreRequest.prior_claims data) (Py.NInt 0)) ;;
  let channel := Py.strip (Py.lower (Py.or_empty (Py.get (ScoreRequest.channel data)))) in
  let city := Py.strip (Py.lower (Py.or_empty (Py.get (ScoreRequest.city data)))) in
  Py.Ok (Claim.mk None
                  (Py.get_default (ScoreRequest.claim_number data) "NA")
                  (Py.get_default (ScoreRequest.policy_number data) "NA")
                  amount channel city prior_claims None None).

(** Lines 355 to 368: the rule loop and the two assignments. *)
Definition assign_results (claim : Claim.t) : Claim.t * list string :=
  let '(score, reasons) := apply_rules RULES claim 0%float [] in
  let fraud_score := Py.min score 100%float in
  let claim := Claim.set_fraud_score claim fraud_score in
  let claim :=
    Claim.set_fraud_label claim
      (if (THRESHOLD <=? fraud_score)%float then "SUSPICIOUS" else "OK") in
  (claim, reasons).

Definition score_claim (db : Database) (data : ScoreRequest.t) : Response * Database :=
  let attempt :=
    claim <- parse_claim data ;;
    let '(claim, reasons) := assign_results claim in
    stored <- add_claim db claim ;;
    let '(db', claim) := stored in
    Py.Ok ((Scored (Claim.claim_number claim) (Claim.fraud_label claim)
                   (Claim.fraud_score claim) reasons, 200), db') in
  match attempt with
  | Py.Ok out => out
  | Py.Raise e => ((ErrorOf e, 500), db)  (* [db.rollback()] *)
  end.

(** The three scoring results of a response, when it carries them. *)
Definition scored (r : Response)
    : option (option float * option string * list string) :=
  match fst r with
  | Scored _ label score reasons => Some (score, label, reasons)
  | _ => None
  end.

(** ** The scoring contract, in the words of the specification *)

Definition rule_predicate (r : Rule) : Claim.t -> Py.result bool := fst (fst r).
Definition rule_weight (r : Rule) : float := snd (fst r).
Definition rule_reason (r : Rule) : string := snd r.

(** A rule is triggered when its predicate returns true; a predicate that
    raises counts as not triggered. *)
Definition triggers (r : Rule) (c : Claim.t) : bool :=
  match rule_predicate r c with
  | Py.Ok b => b
  | Py.Raise _ => false
  end.

(** The triggered rules, in table order. *)
Definition triggered (rules : list Rule) (c : Claim.t) : list Rule :=
  List.filter (fun r => triggers r c) rules.

(** The sum of the weights, added in table order starting from 0.0. *)
Definition sum_weights (rs : list Rule) : float :=
  fold_left (fun s r => s + rule_weight r)%float rs 0%float.

(** Clamping to the closed range from 0 to 100. *)
Definition clamp (x : float) : float :=
  if (x <? 0)%float then 0%float
  else if (100 <? x)%float then 100%float
  else x.

Definition label_of (score : float) : string :=
  if (60 <=? score)%float then "SUSPICIOUS" else "OK".

(** Whether rule number [n] of the table (from 0) is triggered. *)
Definition triggered_at (n : nat) (c : Claim.t) : bool :=
  match RULES !! n with
  | Some r => triggers r c
  | None => false
  end.

(** Whether the store takes the claim: what [add_claim] checks. *)
Definition store_accepts (db : Database) (c : Claim.t) : Prop :=
  is_Some (Claim.claim_number c)
  ∧ is_Some (Claim.policy_number c)
  ∧ int64 (Claim.prior_claims c) = true
  ∧ is_nan (Claim.amount c) = false
  ∧ Claim.claim_number c ∉ map Claim.claim_number (claims db).

(** ** The lineage contract, in the words of the specification *)

(** An identifier is missing when the key is absent, null or zero. *)
Definition missing (f : Py.field Z) : bool :=
  match f with
  | Py.Absent | Py.Null => true
  | Py.Given z => Z.eqb z 0
  end.

(** The field names an asset of the store. *)
Definition refers_to_asset (db : Database) (f : Py.field Z) : Prop :=
  exists k, f = Py.Given k /\ k ∈ map Asset.id (assets db).

(** The field, when it gives an id, gives one within the 64 bits. *)
Definition fits (f : Py.field Z) : Prop :=
  forall k, f = Py.Given k -> int64 k = true.

(** The field gives an id outside the 64 bits (no stored asset has it). *)
Definition overflows (db : Database) (f : Py.field Z) : Prop :=
  exists k, f = Py.Given k /\ int64 k = false /\ k ∉ map Asset.id (assets db).

(** The two failures of edge creation, as the handler reports them. *)
Definition ValidationError (r : Response) : Prop := snd r = 400.

Definition NotFoundError (r : Response) : Prop := snd r = 404.

Global Instance edge_eq_dec : EqDecision Edge.t.
Proof. solve_decision. Defined.

(** How many times an edge is listed. *)
Definition count_edge (x : Edge.t) (edges : list Edge.t) : nat :=
  length (filter (fun e => e = x) edges).

(** The score and the reasons the specification gives a normalized claim. *)
Definition score_of (c : Claim.t) : float := clamp (sum_weights (triggered RULES c)).

Definition reasons_of (c : Claim.t) : list string := map rule_reason (triggered RULES c).

(** ** Concrete stores and requests *)

(** The store of a fresh deployment, seeded at [now]. *)
Definition seeded (now : string) : Database := seed_demo now empty_db.

Definition demo_db : Database := seeded "2025-01-01T00:00:00".

(** Edge requests against the seeded assets 1, 2 and 3. *)
Definition policy_to_reserve : LineageRequest.t :=
  LineageRequest.mk (Py.Given 1) (Py.Given 3) (Some "feeds").

Definition self_loop : LineageRequest.t :=
  LineageRequest.mk (Py.Given 1) (Py.Given 1) None.

Definition no_source : LineageRequest.t :=
  LineageRequest.mk Py.Absent (Py.Given 2) None.

Definition unknown_target : LineageRequest.t :=
  LineageRequest.mk (Py.Given 1) (Py.Given 99) None.

Definition beyond_target : LineageRequest.t :=
  LineageRequest.mk (Py.Given 1) (Py.Given (2 ^ 63)) None.

(** A request body with none of the scoring keys: [{}]. *)
Definition no_fields : ScoreRequest.t :=
  ScoreRequest.mk Py.Absent Py.Absent Py.Absent Py.Absent Py.Absent Py.Absent.

(** The second example of the specification, under a new claim number. *)
Definition high_risk : ScoreRequest.t :=
  ScoreRequest.mk (Py.Given (Py.NInt 450000)) (Py.Given (Py.NInt 3))
                  (Py.Given "online") (Py.Given "unknown")
                  (Py.Given "C-2001") (Py.Given "P-9003").

(** The same attributes under the number of a seeded claim. *)
Definition renumbered : ScoreRequest.t :=
  ScoreRequest.mk (Py.Given (Py.NInt 450000)) (Py.Given (Py.NInt 3))
                  (Py.Given "online") (Py.Given "unknown")
                  (Py.Given "C-1001") (Py.Given "P-9003").

(** A body whose amount is an explicit null. *)
Definition null_amount : ScoreRequest.t :=
  ScoreRequest.mk Py.Null (Py.Given (Py.NInt 0)) (Py.Given "agent") (Py.Given "Chennai")
                  (Py.Given "C-2002") (Py.Given "P-9004").

Definition with_amount (amount : Z) (number : string) : ScoreRequest.t :=
  ScoreRequest.mk (Py.Given (Py.NInt amount)) (Py.Given (Py.NInt 0))
                  (Py.Given "agent") (Py.Given "Chennai")
                  (Py.Given number) (Py.Given "P-9005").

(** A normalized claim on both boundaries. *)
Definition boundary_claim : Claim.t :=
  Claim.mk None (Some "C-2003") (Some "P-9005") 300000%float "agent" "Chennai" 3
           None None.

(** The normalized claims of [with_amount 299999 n] and [with_amount 300001 n]. *)
Definition below_claim (number : string) : Claim.t :=
  Claim.mk None (Some number) (Some "P-9005") 299999%float "agent" "chennai" 0
           None None.

Definition above_claim (number : string) : Claim.t :=
  Claim.mk None (Some number) (Some "P-9005") 300001%float "agent" "chennai" 0
           None None.

(** ** Users, tags and the whole catalog *)

Module User.
Record t : Type := mk {
  id : Z;
  name : string;
  api_key : string;
  role : string   (* 'viewer' or 'editor' *)
}.
End User.

Module Tag.
Record t : Type := mk {
  id : Z;
  name : string
}.
End Tag.

(** All of [catalog.db]: the three tables above, the tags and the users.
    The [asset_tags] rows are the [tags] lists of the assets. *)
Record Catalog : Type := mkCatalog {
  tables : Database;
  tag_table : list Tag.t;
  user_table : list User.t
}.

Definition empty_catalog : Catalog := mkCatalog empty_db [] [].

(** A handler that works on the asset, lineage and claim tables. *)
Definition on_tables {R : Type} (fn : Database -> R * Database) (c : Catalog)
    : R * Catalog :=
  let '(r, db) := fn (tables c) in
  (r, mkCatalog db (tag_table c) (user_table c)).

(** A handler that only reads them. *)
Definition read_tables {R : Type} (fn : Database -> R) (c : Catalog) : R * Catalog :=
  (fn (tables c), c).

(** ** RBAC via API keys *)

(** [current_user]: the first user whose key is the [X-API-KEY] header;
    a request without the header matches nobody. *)
Definition current_user (c : Catalog) (key : option string) : option User.t :=
  List.find (fun u => bool_decide (Some (User.api_key u) = key)) (user_table c).

(** [require_role(roles)] applied to [fn]: the wrapper answers 401 or 403
    without calling [fn], or returns what [fn] returns.  [error] builds the
    body [{"error": message}]. *)
Definition require_role {B : Type} (error : string -> B) (roles : list string)
    (fn : Catalog -> (B * Z) * Catalog) (key : option string) (c : Catalog)
    : (B * Z) * Catalog :=
  match current_user c key with
  | None => ((error "Missing or invalid API key", 401), c)
  | Some user =>
      if bool_decide (User.role user ∈ roles)
      then fn c
      else ((error (String.append "Forbidden for role: " (User.role user)), 403), c)
  end.

Definition require_view {B : Type} (error : string -> B) :=
  require_role error ["viewer"; "editor"].

Definition require_edit {B : Type} (error : string -> B) :=
  require_role error ["editor"].

(** [seed_users]. *)
Definition seed_users (c : Catalog) : Catalog :=
  match user_table c with
  | _ :: _ => c
  | [] =>
      mkCatalog (tables c) (tag_table c)
                [ User.mk 1 "Editor" "editor-key-123" "editor";
                  User.mk 2 "Viewer" "viewer-key-123" "viewer" ]
  end.

(** The lineage, deletion and scoring handlers behind their decorators. *)
Definition add_lineage_endpoint (key : option string) (data : LineageRequest.t)
    : Catalog -> Response * Catalog :=
  require_edit Error (on_tables (fun db => add_lineage db data)) key.

Definition get_lineage_endpoint (key : option string) (asset_id : Z)
    : Catalog -> Response * Catalog :=
  require_view Error (read_tables (fun db => get_lineage db asset_id)) key.

Definition delete_asset_endpoint (key : option string) (asset_id : Z)
    : Catalog -> Response * Catalog :=
  require_edit Error (on_tables (fun db => delete_asset db asset_id)) key.

Definition score_claim_endpoint (key : option string) (data : ScoreRequest.t)
    : Catalog -> Response * Catalog :=
  require_edit Error (on_tables (fun db => score_claim db data)) key.

(** ** Tags and assets *)

(** The bodies of the tag and asset handlers. *)
Inductive CatalogBody : Type :=
| CatalogError (message : string)     (* [{"error": message}] *)
| AssetBody (a : AssetDict.t)
| AssetList (l : list AssetDict.t)
| TagNames (names : list string)
| TagCreated (name : string)          (* [{"name": name}] *)
| Unhandled (e : Py.exn).             (* no [except] clause: the server's 500 *)

Definition CatalogResponse : Type := CatalogBody * Z.

(** [not name] for [name] a string or [None]. *)
Definition no_text (x : option string) : bool :=
  match x with
  | None => true
  | Some s => bool_decide (s = "")
  end.

(** [db.query(Tag).filter_by(name=name).first()]. *)
Definition query_tag (tags : list Tag.t) (name : string) : option Tag.t :=
  List.find (fun t => bool_decide (Tag.name t = name)) tags.

(** [list_tags]. *)
Definition list_tags (c : Catalog) : CatalogResponse :=
  (TagNames (map Tag.name (tag_table c)), 200).

(** [create_tag]. *)
Definition create_tag (c : Catalog) (name : Py.field string) : CatalogResponse * Catalog :=
  let name := Py.get name in
  if no_text name then ((CatalogError "Missing name", 400), c)
  else
    match name with
    | Some n =>
        match query_tag (tag_table c) n with
        | Some _ => ((CatalogError "Tag exists", 400), c)
        | None =>
            let t := Tag.mk (next_id (map Tag.id (tag_table c))) n in
            ((TagCreated (Tag.name t), 201),
             mkCatalog (tables c) (tag_table c ++ [t]) (user_table c))
        end
    | None => ((CatalogError "Missing name", 400), c)  (* not reached *)
    end.

(** [get_asset]; an error of the lookup is not caught. *)
Definition get_asset (db : Database) (asset_id : Z) : CatalogResponse :=
  match asset_get db asset_id with
  | Py.Raise e => (Unhandled e, 500)
  | Py.Ok None => (CatalogError "Not found", 404)
  | Py.Ok (Some a) => (AssetBody (asset_to_dict a), 200)
  end.

(** A query argument when it is truthy: present and not empty. *)
Definition given_text (x : option string) : option string :=
  match x with
  | Some s => if bool_decide (s = "") then None else Some s
  | None => None
  end.

(** [list_assets]; [typ] and [tag] are the query arguments, [None] when
    absent.  An empty argument is falsy and filters nothing.  The join
    with the tags keeps the assets that carry a tag of the given name; the
    query returns each asset once. *)
Definition list_assets (db : Database) (typ tag : option string) : CatalogResponse :=
  let q := assets db in
  let q := match given_text typ with
           | Some typ => filter (fun a => Asset.type a = typ) q
           | None => q
           end in
  let q := match given_text tag with
           | Some tag => filter (fun a => tag ∈ Asset.tags a) q
           | None => q
           end in
  (AssetList (map asset_to_dict q), 200).

Module AssetRequest.
Record t : Type := mk {
  name : Py.field string;
  type : Py.field string;
  description : option string;     (* [None]: the key is absent *)
  tags : Py.field (list string)
}.
End AssetRequest.

(** The loop over the requested tags: a name found in the tags table
    (pending tags are not, as the session does not autoflush) is reused,
    any other becomes a pending [Tag].  The result lists, in request order,
    the names reused and the names pending. *)
Fixpoint collect_tags (stored : list Tag.t) (names : list string)
    : list string * list string :=
  match names with
  | [] => ([], [])
  | t :: rest =>
      let '(reused, pending) := collect_tags stored rest in
      match query_tag stored t with
      | Some _ => (t :: reused, pending)
      | None => (reused, t :: pending)
      end
  end.

(** The rows the pending tags become, keys allocated in order. *)
Fixpoint insert_tags (stored : list Tag.t) (pending : list string) : list Tag.t :=
  match pending with
  | [] => stored
  | t :: rest => insert_tags (stored ++ [Tag.mk (next_id (map Tag.id stored)) t]) rest
  end.

(** The tags of an asset as the store returns them after the commit: the
    rows attached to it (for each requested name the row of that name),
    read through the primary key of [asset_tags], that is by tag id. *)
Definition tag_id_le (t1 t2 : Tag.t) : Prop := Tag.id t1 <= Tag.id t2.

Global Instance tag_id_le_dec (t1 t2 : Tag.t) : Decision (tag_id_le t1 t2).
Proof. unfold tag_id_le. apply _. Defined.

Definition loaded_tags (stored : list Tag.t) (names : list string) : list string :=
  map Tag.name (merge_sort tag_id_le (omap (query_tag stored) names)).

(** [create_asset]; [now] is [datetime.utcnow] at the flush.  The commit
    is refused when [name] or [type] is NULL, when two pending tags share a
    name ([tags.name] is unique), or when one stored tag is attached twice
    (the primary key of [asset_tags]); the handler has no [except] clause,
    so the error surfaces as the server's 500 and nothing is stored.  The
    answer renders the object reloaded after the commit. *)
Definition create_asset (c : Catalog) (data : AssetRequest.t) (now : string)
    : CatalogResponse * Catalog :=
  match Py.get_default (AssetRequest.tags data) [] with
  | None => ((Unhandled Py.TypeError, 500), c)  (* iterating [None] *)
  | Some names =>
      let '(reused, pending) := collect_tags (tag_table c) names in
      match Py.get (AssetRequest.name data), Py.get (AssetRequest.type data) with
      | Some name, Some type =>
          if bool_decide (NoDup pending) && bool_decide (NoDup reused) then
            let tag_rows := insert_tags (tag_table c) pending in
            let a := Asset.mk (next_id (map Asset.id (assets (tables c)))) name type
                              (default "" (AssetRequest.description data)) now
                              (loaded_tags tag_rows names) in
            let db := tables c in
            ((AssetBody (asset_to_dict a), 201),
             mkCatalog (mkDatabase (assets db ++ [a]) (lineage db) (claims db))
                       tag_rows (user_table c))
          else ((Unhandled Py.IntegrityError, 500), c)
      | _, _ => ((Unhandled Py.IntegrityError, 500), c)
      end
  end.

(** The first block of [seed_demo]: the six tags, when there is none. *)
Definition seed_tags (c : Catalog) : Catalog :=
  match tag_table c with
  | _ :: _ => c
  | [] =>
      mkCatalog (tables c)
                (insert_tags [] ["PII"; "GDPR"; "HIPAA"; "PCI"; "internal"; "public"])
                (user_table c)
  end.

(** Start-up: [seed_users()] then [seed_demo()].  [seed_demo] looks the
    PII tag up with [.one()] before it seeds the assets; the model is of
    the start-ups where that lookup succeeds, as it does on an empty
    database and on every catalog reached from one. *)
Definition startup (now : string) (c : Catalog) : Catalog :=
  let c := seed_tags (seed_users c) in
  mkCatalog (seed_demo now (tables c)) (tag_table c) (user_table c).

(** The tag and asset handlers behind their decorators. *)
Definition list_tags_endpoint (key : option string) : Catalog -> CatalogResponse * Catalog :=
  require_view CatalogError (fun c => (list_tags c, c)) key.

Definition create_tag_endpoint (key : option string) (name : Py.field string)
    : Catalog -> CatalogResponse * Catalog :=
  require_edit CatalogError (fun c => create_tag c name) key.

Definition get_asset_endpoint (key : option string) (asset_id : Z)
    : Catalog -> CatalogResponse * Catalog :=
  require_view CatalogError (read_tables (fun db => get_asset db asset_id)) key.

Definition list_assets_endpoint (key : option string) (typ tag : option string)
    : Catalog -> CatalogResponse * Catalog :=
  require_view CatalogError (read_tables (fun db => list_assets db typ tag)) key.

Definition create_asset_endpoint (key : option string) (data : AssetRequest.t)
    (now : string) : Catalog -> CatalogResponse * Catalog :=
  require_edit CatalogError (fun c => create_asset c data now) key.

(** ** Invariants and whole-catalog runs *)

(** No edge dangles: both endpoints of every stored edge are stored
    assets. *)
Definition edges_resolved (db : Database) : Prop :=
  forall e, e ∈ lineage db ->
    Lineage.src_asset_id e ∈ map Asset.id (assets db)
    /\ Lineage.dst_asset_id e ∈ map Asset.id (assets db).

(** The list of an asset listing. *)
Definition listed (r : CatalogResponse) : list AssetDict.t :=
  match fst r with
  | AssetList l => l
  | _ => []
  end.

(** A request to one of the modelled endpoints (all but [update_asset],
    the home page and the health check). *)
Inductive Call : Type :=
| AddLineage (data : LineageRequest.t)
| GetLineage (asset_id : Z)
| DeleteAsset (asset_id : Z)
| ScoreClaim (data : ScoreRequest.t)
| ListTags
| CreateTag (name : Py.field string)
| GetAsset (asset_id : Z)
| ListAssets (typ tag : option string)
| CreateAsset (data : AssetRequest.t) (now : string).

(** The catalog after the request is served under the given key. *)
Definition serve (c : Catalog) (request : option string * Call) : Catalog :=
  let key := fst request in
  match snd request with
  | AddLineage data => snd (add_lineage_endpoint key data c)
  | GetLineage asset_id => snd (get_lineage_endpoint key asset_id c)
  | DeleteAsset asset_id => snd (delete_asset_endpoint key asset_id c)
  | ScoreClaim data => snd (score_claim_endpoint key data c)
  | ListTags => snd (list_tags_endpoint key c)
  | CreateTag name => snd (create_tag_endpoint key name c)
  | GetAsset asset_id => snd (get_asset_endpoint key asset_id c)
  | ListAssets typ tag => snd (list_assets_endpoint key typ tag c)
  | CreateAsset data now => snd (create_asset_endpoint key data now c)
  end.

(** Keys and names are unique, asset keys are positive, and every tag
    attached to an asset is attached once and is a row of the tags table. *)
Definition well_keyed (c : Catalog) : Prop :=
  NoDup (map Asset.id (assets (tables c)))
  /\ Forall (fun k => 1 <= k) (map Asset.id (assets (tables c)))
  /\ NoDup (map Lineage.id (lineage (tables c)))
  /\ NoDup (map Claim.claim_number (claims (tables c)))
  /\ NoDup (map Tag.name (tag_table c))
  /\ NoDup (map Tag.id (tag_table c))
  /\ Forall (fun a => NoDup (Asset.tags a)
                      /\ Forall (fun t => t ∈ map Tag.name (tag_table c)) (Asset.tags a))
            (assets (tables c)).

(** The tables that no endpoint empties. *)
Definition seeded_tables (c : Catalog) : Prop :=
  user_table c <> [] /\ tag_table c <> [] /\ claims (tables c) <> [].

(** The catalog of a fresh deployment. *)
Definition demo_catalog : Catalog := startup "2025-01-01T00:00:00" empty_catalog.

(** A new asset with one stored and one new tag. *)
Definition finance_report : AssetRequest.t :=
  AssetRequest.mk (Py.Given "Finance_Report") (Py.Given "policy") None
                  (Py.Given ["PII"; "finance"]).

(** The same request with the new tag named first. *)
Definition tagged_report : AssetRequest.t :=
  AssetRequest.mk (Py.Given "Finance_Report") (Py.Given "policy") None
                  (Py.Given ["finance"; "PII"]).

(** * Properties *)

(** ** Python helpers on concrete values *)

Example lower_mixed : Py.lower "  OnLine " = "  online ".
Proof. reflexivity. Qed.

Example strip_both : Py.strip "  on line  " = "on line".
Proof. reflexivity. Qed.

Example float_of_int_300000 : Py.float_of_int 300000 = Py.Ok 300000%float.
Proof. reflexivity. Qed.

Example float_of_int_ties_to_even : Py.float_of_int (2 ^ 53 + 1) = Py.Ok 9007199254740992%float.
Proof. reflexivity. Qed.

Example int_of_float_truncates : Py.int_of_float (-2.5)%float = Py.Ok (-2).
Proof. reflexivity. Qed.

Example min_keeps_nan : Py.min nan 100%float = nan.
Proof. reflexivity. Qed.

(** ** The rule loop *)

Section RuleLoop.

Variable claim : Claim.t.

(** The loop adds the weights of the triggered rules to [score] in table
    order and appends their reasons to [reasons], for any rule table. *)
Lemma apply_rules_spec (rules : list Rule) (score : float) (reasons : list string) :
  apply_rules rules claim score reasons =
  (fold_left (fun s r => s + rule_weight r)%float (triggered rules claim) score,
   (reasons ++ map rule_reason (triggered rules claim))%list).
Proof.
  revert score reasons.
  induction rules as [|[[p w] n] rules IH]; intros score reasons; simpl.
  - by rewrite app_nil_r.
  - unfold triggered, triggers, rule_predicate in *; simpl.
    destruct (p claim) as [[|]|e]; simpl; rewrite IH; rewrite <- ?app_assoc; done.
Qed.

Corollary apply_rules_from_zero (rules : list Rule) :
  apply_rules rules claim 0%float [] =
  (sum_weights (triggered rules claim), map rule_reason (triggered rules claim)).
Proof. by rewrite apply_rules_spec. Qed.

(** On the rule table of the program the sum never leaves the range, so
    the upper clamp of the code is the two-sided clamp. *)
Lemma min_is_clamp :
  Py.min (sum_weights (triggered RULES claim)) 100%float
  = clamp (sum_weights (triggered RULES claim)).
Proof.
  unfold triggered, RULES, triggers, rule_predicate; simpl.
  destruct (300000 <? Claim.amount claim)%float, (Z.leb 3 (Claim.prior_claims claim)),
    (bool_decide (Claim.channel claim = "online")),
    (bool_decide (Py.lower (Claim.city claim) ∈ unknown_cities)); reflexivity.
Qed.

Lemma assign_results_spec :
  let s := clamp (sum_weights (triggered RULES claim)) in
  assign_results claim =
  (Claim.set_fraud_label (Claim.set_fraud_score claim s) (label_of s),
   map rule_reason (triggered RULES claim)).
Proof.
  unfold assign_results. rewrite apply_rules_from_zero, min_is_clamp. reflexivity.
Qed.

End RuleLoop.

(** A rule whose predicate raises is passed over and the loop goes on. *)
Example raising_rule_is_skipped (c : Claim.t) :
  apply_rules [ (fun _ => Py.Raise Py.TypeError, 40%float, "broken");
                (fun _ => Py.Ok true, 7%float, "always") ] c 0%float []
  = (7%float, ["always"]).
Proof. reflexivity. Qed.

(** The triggered rules depend on the four scoring attributes only. *)
Lemma triggered_RULES_ext (c1 c2 : Claim.t) :
  Claim.amount c1 = Claim.amount c2 ->
  Claim.prior_claims c1 = Claim.prior_claims c2 ->
  Claim.channel c1 = Claim.channel c2 ->
  Claim.city c1 = Claim.city c2 ->
  triggered RULES c1 = triggered RULES c2.
Proof.
  intros Ha Hp Hch Hci.
  unfold triggered, RULES, triggers, rule_predicate; simpl.
  by rewrite Ha, Hp, Hch, Hci.
Qed.

(** ** The claim store *)

Lemma add_claim_accepted (db : Database) (c : Claim.t) :
  store_accepts db c ->
  add_claim db c =
  Py.Ok (mkDatabase (assets db) (lineage db) (claims db ++ [stored_claim db c]),
         stored_claim db c).
Proof.
  intros ([n Hn] & [p Hp] & Hi & Ha & Hu). unfold add_claim.
  rewrite Hn, Hp, Hi, Ha; simpl.
  rewrite bool_decide_eq_false_2; [done | by rewrite <- Hn].
Qed.

Lemma add_claim_Ok_inv (db : Database) (c : Claim.t) out :
  add_claim db c = Py.Ok out -> store_accepts db c.
Proof.
  unfold add_claim, store_accepts.
  destruct (Claim.claim_number c) as [n|]; [|done].
  destruct (Claim.policy_number c) as [p|]; [|done].
  destruct (int64 (Claim.prior_claims c)); [|done].
  destruct (is_nan (Claim.amount c)); [done|]. simpl.
  case_bool_decide; [done|]. intros _. eauto 10.
Qed.

Lemma store_accepts_assigned (db : Database) (c : Claim.t) :
  store_accepts db (fst (assign_results c)) <-> store_accepts db c.
Proof. by rewrite assign_results_spec. Qed.

(** ** The scoring handler *)

(** The response when the request coerces and the store takes the claim. *)
Lemma score_claim_accepted (db : Database) (data : ScoreRequest.t) (claim : Claim.t) :
  parse_claim data = Py.Ok claim ->
  store_accepts db claim ->
  score_claim db data =
  ((Scored (Claim.claim_number claim) (Some (label_of (score_of claim)))
           (Some (score_of claim)) (reasons_of claim), 200),
   mkDatabase (assets db) (lineage db)
              (claims db ++ [stored_claim db (fst (assign_results claim))])).
Proof.
  intros Hparse Hacc. unfold score_claim. rewrite Hparse; simpl.
  apply store_accepts_assigned in Hacc. apply add_claim_accepted in Hacc.
  destruct (assign_results claim) as [assigned reasons] eqn:Hassign.
  simpl in Hacc. rewrite Hacc; simpl.
  rewrite assign_results_spec in Hassign. by inversion Hassign.
Qed.

(** Every other request is answered with status 500, and the rollback
    leaves the store as it was. *)
Lemma score_claim_refused (db : Database) (data : ScoreRequest.t) :
  (forall claim, parse_claim data = Py.Ok claim -> ~ store_accepts db claim) ->
  exists e, score_claim db data = ((ErrorOf e, 500), db).
Proof.
  intros Hno. unfold score_claim.
  destruct (parse_claim data) as [claim|e] eqn:Hparse; simpl; [|by eauto].
  destruct (assign_results claim) as [assigned reasons] eqn:Hassign.
  destruct (add_claim db assigned) as [[db' row]|e] eqn:Hadd; simpl; [|by eauto].
  exfalso. apply (Hno claim eq_refl). apply store_accepts_assigned.
  rewrite Hassign. by eapply add_claim_Ok_inv.
Qed.

(** A response that carries a score comes from a request that coerced and
    a claim the store took. *)
Lemma score_claim_scored_inv (db : Database) (data : ScoreRequest.t) result :
  scored (fst (score_claim db data)) = Some result ->
  exists claim,
    parse_claim data = Py.Ok claim
    /\ store_accepts db claim
    /\ result = (Some (score_of claim), Some (label_of (score_of claim)), reasons_of claim).
Proof.
  intros Hscored.
  destruct (parse_claim data) as [claim|e] eqn:Hparse.
  - destruct (decide (store_accepts db claim)) as [Hacc|Hrej].
    + exists claim. rewrite (score_claim_accepted db data claim Hparse Hacc) in Hscored.
      simpl in Hscored. by inversion Hscored.
    + destruct (score_claim_refused db data) as [e He].
      * intros c Hc. congruence.
      * by rewrite He in Hscored.
  - destruct (score_claim_refused db data) as [e' He]; [congruence|].
    by rewrite He in Hscored.
Qed.

Ltac accept_closed :=
  repeat split; try (by eexists); try reflexivity;
  apply (bool_decide_unpack _); vm_compute; exact I.

(** C1 (as amended). For every scoring input whose [amount] and
    [prior_claims] coerce and whose claim record the store accepts,
    [score_claim] answers 200 with a score equal to the sum of the weights
    of the rules, in table order, whose predicates hold on the normalized
    claim (a raising predicate counting as not triggered), clamped to the
    range from 0 to 100, with the label SUSPICIOUS exactly when that score
    is at least 60.0 and OK otherwise, and with the triggered rules'
    reasons in table order. *)
Theorem score_claim_spec (db : Database) (data : ScoreRequest.t) (claim : Claim.t) :
  parse_claim data = Py.Ok claim ->
  store_accepts db claim ->
  let score := clamp (sum_weights (triggered RULES claim)) in
  fst (score_claim db data) =
  (Scored (Claim.claim_number claim)
          (Some (if (60 <=? score)%float then "SUSPICIOUS" else "OK"))
          (Some score)
          (map rule_reason (triggered RULES claim)), 200).
Proof.
  intros Hparse Hacc. by rewrite (score_claim_accepted db data claim Hparse Hacc).
Qed.

Lemma score_claim_spec_witness :
  let claim := Claim.mk None (Some "C-2001") (Some "P-9003") 450000%float
                        "online" "unknown" 3 None None in
  parse_claim high_risk = Py.Ok claim
  /\ store_accepts demo_db claim
  /\ fst (score_claim demo_db high_risk) =
     (Scored (Some "C-2001") (Some "SUSPICIOUS") (Some 90%float)
             ["High claim amount > 300k"; "Three or more prior claims";
              "Online submission"; "Missing/unknown city"], 200).
Proof.
  assert (Hacc : store_accepts demo_db
            (Claim.mk None (Some "C-2001") (Some "P-9003") 450000%float
                      "online" "unknown" 3 None None)) by accept_closed.
  split; [reflexivity | split; [exact Hacc |]].
  exact (score_claim_spec demo_db high_risk _ eq_refl Hacc).
Defined.

(** C1 as stated fails: a well-formed request that reuses a stored claim
    number, and one whose amount is null, are answered with status 500 and
    no score. *)
Lemma score_claim_can_fail :
  score_claim demo_db renumbered = ((ErrorOf Py.IntegrityError, 500), demo_db)
  /\ score_claim demo_db null_amount = ((ErrorOf Py.TypeError, 500), demo_db).
Proof. split; reflexivity. Qed.

(** C6 (as amended). Whenever two calls of [score_claim] whose inputs
    agree on amount, prior_claims, channel and city both return a result,
    the two results carry the same score, label and reasons, whatever the
    two stores and the other fields are.  (Whether a result is returned at
    all also depends on the store and on the claim and policy numbers.) *)
Theorem score_claim_deterministic
    (db1 db2 : Database) (data1 data2 : ScoreRequest.t)
    (result1 result2 : option float * option string * list string) :
  ScoreRequest.amount data1 = ScoreRequest.amount data2 ->
  ScoreRequest.prior_claims data1 = ScoreRequest.prior_claims data2 ->
  ScoreRequest.channel data1 = ScoreRequest.channel data2 ->
  ScoreRequest.city data1 = ScoreRequest.city data2 ->
  scored (fst (score_claim db1 data1)) = Some result1 ->
  scored (fst (score_claim db2 data2)) = Some result2 ->
  result1 = result2.
Proof.
  intros Ha Hp Hch Hci H1 H2.
  apply score_claim_scored_inv in H1 as (c1 & Hc1 & _ & ->).
  apply score_claim_scored_inv in H2 as (c2 & Hc2 & _ & ->).
  unfold parse_claim in Hc1, Hc2. rewrite Ha, Hp, Hch, Hci in Hc1.
  destruct (Py.float _) as [amount|]; [|done].
  destruct (Py.int _) as [prior|]; [|done]. simpl in Hc1, Hc2.
  injection Hc1 as <-. injection Hc2 as <-.
  unfold score_of, reasons_of.
  by rewrite (triggered_RULES_ext _ (Claim.mk None
       (Py.get_default (ScoreRequest.claim_number data2) "NA")
       (Py.get_default (ScoreRequest.policy_number data2) "NA")
       amount
       (Py.strip (Py.lower (Py.or_empty (Py.get (ScoreRequest.channel data2)))))
       (Py.strip (Py.lower (Py.or_empty (Py.get (ScoreRequest.city data2)))))
       prior None None)).
Qed.

Lemma score_claim_deterministic_witness :
  scored (fst (score_claim demo_db high_risk))
  = Some (Some 90%float, Some "SUSPICIOUS",
          ["High claim amount > 300k"; "Three or more prior claims";
           "Online submission"; "Missing/unknown city"])
  /\ scored (fst (score_claim empty_db renumbered))
     = scored (fst (score_claim demo_db high_risk)).
Proof.
  split; [reflexivity |].
  destruct (scored (fst (score_claim empty_db renumbered))) as [r2|] eqn:H2;
    [| discriminate H2].
  destruct (scored (fst (score_claim demo_db high_risk))) as [r1|] eqn:H1;
    [| discriminate H1].
  f_equal.
  exact (score_claim_deterministic empty_db demo_db renumbered high_risk r2 r1
           eq_refl eq_refl eq_refl eq_refl H2 H1).
Defined.

(** C6 as stated fails: the same request, sent twice, is scored the first
    time and refused the second time, because the first call stored its
    claim number. *)
Lemma rescoring_is_refused :
  scored (fst (score_claim demo_db high_risk))
  = Some (Some 90%float, Some "SUSPICIOUS",
          ["High claim amount > 300k"; "Three or more prior claims";
           "Online submission"; "Missing/unknown city"])
  /\ fst (score_claim (snd (score_claim demo_db high_risk)) high_risk)
     = (ErrorOf Py.IntegrityError, 500)
  /\ scored (fst (score_claim (snd (score_claim demo_db high_risk)) high_risk)) = None.
Proof. repeat split; reflexivity. Qed.

(** C7. A claim whose amount is exactly 300000 does not trigger rule 1
    (the comparison is strict), and a claim whose prior_claims is exactly 3
    triggers rule 2 (the comparison is greater-or-equal). *)
Theorem rule_boundaries (c1 c2 : Claim.t) :
  Claim.amount c1 = 300000%float ->
  Claim.prior_claims c2 = 3 ->
  triggered_at 0 c1 = false /\ triggered_at 1 c2 = true.
Proof.
  intros Hamount Hprior.
  unfold triggered_at, triggers, rule_predicate; simpl.
  by rewrite Hamount, Hprior.
Qed.

Lemma rule_boundaries_witness :
  Claim.amount boundary_claim = 300000%float
  /\ Claim.prior_claims boundary_claim = 3
  /\ triggered_at 0 boundary_claim = false
  /\ triggered_at 1 boundary_claim = true.
Proof.
  split; [reflexivity | split; [reflexivity |]].
  exact (rule_boundaries boundary_claim boundary_claim eq_refl eq_refl).
Defined.

(** The boundary seen through the handler: at 300000 rule 1 stays silent,
    one unit above it fires. *)
Example amount_boundary_through_handler :
  scored (fst (score_claim demo_db (with_amount 300000 "C-2004")))
  = Some (Some 0%float, Some "OK", [])
  /\ scored (fst (score_claim demo_db (with_amount 300001 "C-2004")))
     = Some (Some 50%float, Some "OK", ["High claim amount > 300k"]).
Proof. split; reflexivity. Qed.

(** The score of a claim grows with the set of rules it triggers. *)
Lemma score_of_monotone (c1 c2 : Claim.t) :
  (forall r, r ∈ RULES -> triggers r c1 = true -> triggers r c2 = true) ->
  (score_of c1 <=? score_of c2)%float = true.
Proof.
  intros Hsub.
  assert (H1 := Hsub _ (list_elem_of_here _ _)).
  assert (H2 := Hsub _ (list_elem_of_further _ _ _ (list_elem_of_here _ _))).
  assert (H3 := Hsub _ (list_elem_of_further _ _ _
                          (list_elem_of_further _ _ _ (list_elem_of_here _ _)))).
  assert (H4 := Hsub _ (list_elem_of_further _ _ _
                          (list_elem_of_further _ _ _
                             (list_elem_of_further _ _ _ (list_elem_of_here _ _))))).
  clear Hsub. revert H1 H2 H3 H4.
  unfold score_of, triggered, RULES, triggers, rule_predicate; simpl.
  destruct (300000 <? Claim.amount c1)%float, (Z.leb 3 (Claim.prior_claims c1)),
    (bool_decide (Claim.channel c1 = "online")),
    (bool_decide (Py.lower (Claim.city c1) ∈ unknown_cities));
  destruct (300000 <? Claim.amount c2)%float, (Z.leb 3 (Claim.prior_claims c2)),
    (bool_decide (Claim.channel c2 = "online")),
    (bool_decide (Py.lower (Claim.city c2) ∈ unknown_cities));
  intros H1 H2 H3 H4;
  first [ reflexivity
        | discriminate (H1 eq_refl) | discriminate (H2 eq_refl)
        | discriminate (H3 eq_refl) | discriminate (H4 eq_refl) ].
Qed.

(** C8. Scoring is monotone in the triggering conditions: if every rule
    that holds on the first normalized claim also holds on the second (one
    attribute changed so that a further predicate becomes true and none
    becomes false, say), the score returned for the second is not below
    the score returned for the first. *)
Theorem score_claim_monotone
    (db1 db2 : Database) (data1 data2 : ScoreRequest.t) (c1 c2 : Claim.t)
    (s1 s2 : float) (l1 l2 : option string) (rs1 rs2 : list string) :
  parse_claim data1 = Py.Ok c1 ->
  parse_claim data2 = Py.Ok c2 ->
  (forall r, r ∈ RULES -> triggers r c1 = true -> triggers r c2 = true) ->
  scored (fst (score_claim db1 data1)) = Some (Some s1, l1, rs1) ->
  scored (fst (score_claim db2 data2)) = Some (Some s2, l2, rs2) ->
  (s1 <=? s2)%float = true.
Proof.
  intros Hc1 Hc2 Hsub H1 H2.
  apply score_claim_scored_inv in H1 as (c1' & Hc1' & _ & E1).
  apply score_claim_scored_inv in H2 as (c2' & Hc2' & _ & E2).
  assert (c1' = c1) as -> by congruence.
  assert (c2' = c2) as -> by congruence.
  injection E1 as -> _ _. injection E2 as -> _ _.
  by apply score_of_monotone.
Qed.

Lemma score_claim_monotone_witness :
  parse_claim (with_amount 299999 "C-2004") = Py.Ok (below_claim "C-2004")
  /\ parse_claim (with_amount 300001 "C-2005") = Py.Ok (above_claim "C-2005")
  /\ (forall r, r ∈ RULES ->
        triggers r (below_claim "C-2004") = true ->
        triggers r (above_claim "C-2005") = true)
  /\ scored (fst (score_claim demo_db (with_amount 299999 "C-2004")))
     = Some (Some 0%float, Some "OK", [])
  /\ scored (fst (score_claim demo_db (with_amount 300001 "C-2005")))
     = Some (Some 50%float, Some "OK", ["High claim amount > 300k"])
  /\ (0 <=? 50)%float = true.
Proof.
  assert (Hsub : forall r, r ∈ RULES ->
            triggers r (below_claim "C-2004") = true ->
            triggers r (above_claim "C-2005") = true).
  { intros r Hr.
    repeat (apply elem_of_cons in Hr as [-> | Hr]); try (vm_compute; congruence).
    by apply elem_of_nil in Hr. }
  repeat (split; [first [reflexivity | exact Hsub] |]).
  exact (score_claim_monotone demo_db demo_db
           (with_amount 299999 "C-2004") (with_amount 300001 "C-2005")
           (below_claim "C-2004") (above_claim "C-2005")
           0%float 50%float (Some "OK") (Some "OK") [] ["High claim amount > 300k"]
           eq_refl eq_refl Hsub eq_refl eq_refl).
Defined.

(** C10 (as amended). A call whose input omits amount, prior_claims,
    channel and city returns fraud_score 10.0, fraud_label OK and the
    single reason "Missing/unknown city", provided the store accepts the
    claim: its claim number (["NA"] when omitted) is not null and not yet
    stored, and its policy number is not null. *)
Theorem score_claim_defaults (db : Database) (data : ScoreRequest.t) :
  ScoreRequest.amount data = Py.Absent ->
  ScoreRequest.prior_claims data = Py.Absent ->
  ScoreRequest.channel data = Py.Absent ->
  ScoreRequest.city data = Py.Absent ->
  ScoreRequest.claim_number data <> Py.Null ->
  ScoreRequest.policy_number data <> Py.Null ->
  (Py.get_default (ScoreRequest.claim_number data) "NA"
     ∉ map Claim.claim_number (claims db)) ->
  fst (score_claim db data) =
  (Scored (Py.get_default (ScoreRequest.claim_number data) "NA")
          (Some "OK") (Some 10%float) ["Missing/unknown city"], 200).
Proof.
  intros Ha Hp Hch Hci Hn Hpol Hfresh.
  pose (claim := Claim.mk None
                   (Py.get_default (ScoreRequest.claim_number data) "NA")
                   (Py.get_default (ScoreRequest.policy_number data) "NA")
                   0%float "" "" 0 None None).
  assert (Hparse : parse_claim data = Py.Ok claim).
  { unfold parse_claim. by rewrite Ha, Hp, Hch, Hci. }
  assert (Hacc : store_accepts db claim).
  { repeat split; try done; simpl.
    - by destruct (ScoreRequest.claim_number data).
    - by destruct (ScoreRequest.policy_number data). }
  by rewrite (score_claim_accepted db data claim Hparse Hacc).
Qed.

Lemma score_claim_defaults_witness :
  (Some "NA" ∉ map Claim.claim_number (claims demo_db))
  /\ fst (score_claim demo_db no_fields) =
     (Scored (Some "NA") (Some "OK") (Some 10%float) ["Missing/unknown city"], 200).
Proof.
  assert (Hfresh : Some "NA" ∉ map Claim.claim_number (claims demo_db)).
  { apply (bool_decide_unpack _). vm_compute. exact I. }
  split; [exact Hfresh |].
  exact (score_claim_defaults demo_db no_fields eq_refl eq_refl eq_refl eq_refl
           ltac:(discriminate) ltac:(discriminate) Hfresh).
Defined.

(** C10 as stated fails: once a claim numbered ["NA"] is stored (by an
    earlier call with the same empty body, here), the call is refused. *)
Lemma defaults_refused_after_first_call :
  fst (score_claim demo_db no_fields) =
  (Scored (Some "NA") (Some "OK") (Some 10%float) ["Missing/unknown city"], 200)
  /\ score_claim (snd (score_claim demo_db no_fields)) no_fields
     = ((ErrorOf Py.IntegrityError, 500), snd (score_claim demo_db no_fields)).
Proof. split; reflexivity. Qed.

(** ** Dict comprehensions *)

Section Dict.
Context {V : Type}.
Implicit Types (d pairs : list (Z * V)).

Lemma dict_set_fresh k v d : k ∉ map fst d -> dict_set k v d = d ++ [(k, v)].
Proof.
  induction d as [|[k' v'] d IH]; simpl; [done |].
  intros Hk. destruct (Z.eqb_spec k' k) as [->|Hne].
  - exfalso. apply Hk. by left.
  - rewrite IH; [done |]. intros Hin. apply Hk. by right.
Qed.

Lemma dict_set_keys_present k v d :
  k ∈ map fst d -> map fst (dict_set k v d) = map fst d.
Proof.
  induction d as [|[k' v'] d IH]; simpl; [by intros ?%elem_of_nil |].
  intros Hk. destruct (Z.eqb_spec k' k) as [->|Hne]; simpl; [done |].
  rewrite IH; [done |]. apply elem_of_cons in Hk as [?|?]; [congruence | done].
Qed.

Lemma dict_set_keys k v d x :
  x ∈ map fst (dict_set k v d) <-> x ∈ map fst d \/ x = k.
Proof.
  destruct (decide (k ∈ map fst d)) as [Hin|Hout].
  - rewrite dict_set_keys_present by done. split; [by left | by intros [?| ->]].
  - rewrite dict_set_fresh by done. rewrite map_app, elem_of_app; simpl.
    by rewrite list_elem_of_singleton.
Qed.


Lemma dict_set_elem k v d kv :
  kv ∈ dict_set k v d -> kv ∈ d \/ kv = (k, v).
Proof.
  induction d as [|[k' v'] d IH]; simpl.
  - intros ->%list_elem_of_singleton. by right.
  - destruct (Z.eqb_spec k' k) as [->|Hne].
    + intros [->|Hin]%elem_of_cons; [by right | left; by right].
    + intros [->|Hin]%elem_of_cons; [left; by left |].
      destruct (IH Hin) as [?|?]; [left; by right | by right].
Qed.


Lemma dict_update_keys pairs d k :
  k ∈ map fst (dict_update d pairs) <-> k ∈ map fst d \/ k ∈ map fst pairs.
Proof.
  revert d. induction pairs as [|[k' v] pairs IH]; intros d; simpl.
  - split; [by left | intros [?|Hin]; [done | by apply elem_of_nil in Hin]].
  - change (k ∈ map fst (dict_update (dict_set k' v d) pairs)
            <-> k ∈ map fst d \/ k ∈ k' :: map fst pairs).
    rewrite IH, dict_set_keys, elem_of_cons. tauto.
Qed.

Lemma dict_update_elem pairs d kv :
  kv ∈ dict_update d pairs -> kv ∈ d \/ kv ∈ pairs.
Proof.
  revert d. induction pairs as [|[k v] pairs IH]; intros d; [by left |].
  intros Hin. apply (IH (dict_set k v d)) in Hin as [Hin|Hin]; [| right; by right].
  apply dict_set_elem in Hin as [Hin|Hin]; [by left | right; rewrite Hin; by left].
Qed.

Lemma dict_update_fresh pairs d :
  NoDup (map fst d ++ map fst pairs) -> dict_update d pairs = d ++ pairs.
Proof.
  revert d. induction pairs as [|[k v] pairs IH]; intros d Hnd; simpl.
  - by rewrite app_nil_r.
  - simpl in Hnd. apply NoDup_app in Hnd as (Hd & Hdisj & Hp).
    apply NoDup_cons in Hp as [Hk Hp].
    change (dict_update (dict_set k v d) pairs = d ++ (k, v) :: pairs).
    rewrite dict_set_fresh.
    + rewrite IH; [by rewrite <- app_assoc |].
      rewrite map_app; simpl. rewrite <- app_assoc; simpl.
      apply NoDup_app. split_and!; [done | | by apply NoDup_cons].
      intros x Hx. apply Hdisj in Hx. done.
    + intros Hin. apply Hdisj in Hin. apply Hin. by left.
Qed.
End Dict.

(** ** The neighbourhood query *)


Lemma dict_ids_are_keys (d : list (Z * AssetDict.t)) :
  (forall kv, kv ∈ d -> AssetDict.id (snd kv) = fst kv) ->
  map AssetDict.id (dict_values d) = map fst d.
Proof.
  intros Hkeys. unfold dict_values. rewrite map_map.
  apply map_ext_in. intros kv Hin. apply Hkeys. by apply list_elem_of_In.
Qed.

Section Nodes.
Variable db : Database.
Variable ids : gset Z.

Let selected : list Asset.t := filter (fun a => Asset.id a ∈ ids) (assets db).
Let pairs : list (Z * AssetDict.t) :=
  map (fun a => (Asset.id a, asset_to_dict a)) selected.

Lemma pairs_keyed kv : kv ∈ dict_of pairs -> AssetDict.id (snd kv) = fst kv.
Proof.
  intros Hin. apply dict_update_elem in Hin as [Hin|Hin]; [by apply elem_of_nil in Hin |].
  apply list_elem_of_fmap in Hin as (a & -> & _). done.
Qed.



Lemma nodes_ids i :
  i ∈ map AssetDict.id (dict_values (dict_of pairs))
  <-> i ∈ ids /\ i ∈ map Asset.id (assets db).
Proof.
  rewrite dict_ids_are_keys by apply pairs_keyed.
  unfold dict_of. rewrite dict_update_keys. unfold pairs. rewrite map_map; simpl.
  split.
  - intros [Hin|Hin]; [by apply elem_of_nil in Hin |].
    apply list_elem_of_fmap in Hin as (a & -> & Ha).
    apply list_elem_of_filter in Ha as [Hid Ha].
    split; [done |]. apply list_elem_of_fmap. eauto.
  - intros [Hid Hin]. right.
    apply list_elem_of_fmap in Hin as (a & -> & Ha).
    apply list_elem_of_fmap. exists a. split; [done |].
    apply list_elem_of_filter. done.
Qed.

Lemma nodes_unique_keys :
  NoDup (map Asset.id (assets db)) ->
  dict_values (dict_of pairs) = map asset_to_dict selected.
Proof.
  intros Hnd. unfold dict_of. rewrite dict_update_fresh.
  - unfold dict_values, pairs. simpl. by rewrite map_map.
  - simpl. unfold pairs. rewrite map_map; simpl.
    apply (sublist_NoDup _ (map Asset.id (assets db))); [done |].
    apply fmap_sublist, sublist_filter.
Qed.
End Nodes.

Lemma bindable_int64 (column : list Z) (k : Z) : int64 k = true -> bindable column k = true.
Proof. intros H. unfold bindable. by rewrite H. Qed.

Lemma bindable_stored (column : list Z) (k : Z) : k ∈ column -> bindable column k = true.
Proof.
  intros H. unfold bindable. rewrite (bool_decide_eq_true_2 _ H). apply orb_true_r.
Qed.

Lemma bindable_false (column : list Z) (k : Z) :
  bindable column k = false -> int64 k = false /\ k ∉ column.
Proof.
  unfold bindable. intros [H1 H2]%orb_false_iff.
  split; [done | by apply bool_decide_eq_false in H2].
Qed.


(** Any other id is answered with its neighbourhood as well, when an edge
    names it, and with status 500 otherwise. *)
Lemma get_lineage_cases (db : Database) (a : Z) :
  get_lineage db a = neighborhood db a
  \/ (get_lineage db a = (Uncaught Py.OverflowError, 500)
      /\ int64 a = false
      /\ forall e, e ∈ lineage db ->
           Lineage.src_asset_id e <> a /\ Lineage.dst_asset_id e <> a).
Proof.
  unfold get_lineage.
  destruct (bindable _ a) eqn:Hb; [by left | right].
  apply bindable_false in Hb as [Hi Hout]. split_and!; try done.
  intros e He. split; intros <-; apply Hout, elem_of_app; [left | right];
    apply list_elem_of_fmap; eauto.
Qed.

(** An id that a stored edge names is answered with its neighbourhood. *)
Lemma get_lineage_touched (db : Database) (a : Z) (e : Lineage.t) :
  e ∈ lineage db ->
  Lineage.src_asset_id e = a \/ Lineage.dst_asset_id e = a ->
  get_lineage db a = neighborhood db a.
Proof.
  intros He Hend.
  destruct (get_lineage_cases db a) as [H | (_ & _ & Hno)]; [done |].
  destruct (Hno e He) as [? ?]. by destruct Hend.
Qed.




(** With asset ids unique, as a primary key is, the nodes are the selected
    asset rows in table order. *)
Corollary get_lineage_nodes_unique_keys (db : Database) (a : Z) :
  NoDup (map Asset.id (assets db)) ->
  nodes_of (neighborhood db a) =
  map asset_to_dict
      (filter (fun x => Asset.id x ∈ node_ids_of a (outgoing_of db a) (incoming_of db a))
              (assets db)).
Proof. intros Hnd. unfold neighborhood, nodes_of; simpl. by apply nodes_unique_keys. Qed.

Example get_lineage_demo :
  map AssetDict.id (nodes_of (get_lineage demo_db 2)) = [1; 2; 3]
  /\ edges_of (get_lineage demo_db 2)
     = [Edge.mk 2 2 3 "drives"; Edge.mk 1 1 2 "feeds"].
Proof. split; reflexivity. Qed.

(** An asset that is not stored has an empty neighbourhood. *)
Example get_lineage_unknown_asset : get_lineage demo_db 99 = (Neighborhood [] [], 200).
Proof. reflexivity. Qed.

(** C9. For every asset id and every store, every edge that
    [get_lineage] returns has the asset as its source or as its
    destination. *)
Theorem get_lineage_edges_touch (db : Database) (a : Z) :
  Forall (fun e => Edge.source e = a \/ Edge.target e = a)
         (edges_of (get_lineage db a)).
Proof.
  destruct (get_lineage_cases db a) as [-> | (-> & _)]; [| by constructor].
  unfold neighborhood, edges_of; simpl.
  apply Forall_fmap, Forall_app. split; apply Forall_forall; intros e He.
  - apply list_elem_of_filter in He as [He _]. by left.
  - apply list_elem_of_filter in He as [He _]. by right.
Qed.

(** ** Edge creation *)

Lemma query_asset_Some (db : Database) (k : Z) :
  k ∈ map Asset.id (assets db) <-> is_Some (query_asset db k).
Proof.
  unfold query_asset. split.
  - intros (a & -> & Ha)%list_elem_of_fmap.
    destruct (List.find _ (assets db)) as [x|] eqn:Hfind; [by eexists |].
    apply list_elem_of_In in Ha.
    apply (find_none _ _ Hfind) in Ha. by rewrite Z.eqb_refl in Ha.
  - intros [a Ha]. apply find_some in Ha as [Hin Heq].
    apply Z.eqb_eq in Heq as <-. apply list_elem_of_fmap.
    exists a. split; [done | by apply list_elem_of_In].
Qed.

Lemma missing_falsy (f : Py.field Z) : Py.falsy (Py.get f) = missing f.
Proof. by destruct f. Qed.

Lemma foldr_max_ge (i : Z) (l : list Z) x : x = i \/ x ∈ l -> x <= foldr Z.max i l.
Proof.
  induction l as [|y l IH]; simpl.
  - intros [-> | H%elem_of_nil]; [lia | done].
  - intros [-> | [-> | H]%elem_of_cons]; [specialize (IH (or_introl eq_refl)) | | specialize (IH (or_intror H))]; lia.
Qed.

Lemma next_id_fresh (ids : list Z) : next_id ids ∉ ids.
Proof.
  destruct ids as [|i l]; [apply not_elem_of_nil |].
  intros Hin. unfold next_id in Hin.
  assert (1 + foldr Z.max i l <= foldr Z.max i l); [| lia].
  apply foldr_max_ge. apply elem_of_cons in Hin as [?|?]; eauto.
Qed.

Lemma count_edge_app x l1 l2 : count_edge x (l1 ++ l2) = (count_edge x l1 + count_edge x l2)%nat.
Proof. unfold count_edge. by rewrite filter_app, length_app. Qed.

Lemma count_edge_other_ids (x : Edge.t) (edges : list Edge.t) :
  Edge.id x ∉ map Edge.id edges -> count_edge x edges = 0%nat.
Proof.
  unfold count_edge. induction edges as [|e edges IH]; [done |].
  intros Hfresh. rewrite filter_cons. rewrite decide_False.
  - apply IH. intros Hin. apply Hfresh. by right.
  - intros ->. apply Hfresh. by left.
Qed.

Lemma count_edge_stored (P : Lineage.t -> Prop) `{!forall e, Decision (P e)}
    (l : list Lineage.t) (x : Edge.t) :
  Edge.id x ∉ map Lineage.id l ->
  count_edge x (map edge_to_dict (filter P l)) = 0%nat.
Proof.
  intros Hfresh. apply count_edge_other_ids. rewrite map_map; simpl.
  intros (r & E & Hr)%list_elem_of_fmap. apply Hfresh.
  apply list_elem_of_fmap. exists r. split; [done |].
  by apply list_elem_of_filter in Hr as [_ ?].
Qed.

Lemma asset_get_stored (db : Database) (k : Z) :
  k ∈ map Asset.id (assets db) ->
  exists x, asset_get db k = Py.Ok (Some x) /\ query_asset db k = Some x.
Proof.
  intros Hin. unfold asset_get. rewrite (bindable_stored _ _ Hin).
  apply query_asset_Some in Hin as [x Hx]. exists x. by rewrite Hx.
Qed.

Lemma asset_get_absent (db : Database) (k : Z) :
  k ∉ map Asset.id (assets db) ->
  asset_get db k = if int64 k then Py.Ok None else Py.Raise Py.OverflowError.
Proof.
  intros Hout. unfold asset_get, bindable.
  rewrite (bool_decide_eq_false_2 _ Hout), orb_false_r.
  destruct (int64 k); [| done].
  destruct (query_asset db k) eqn:E; [| done].
  exfalso. apply Hout, query_asset_Some. by eexists.
Qed.

(** A request with a missing id. *)
Lemma add_lineage_missing (db : Database) (data : LineageRequest.t) :
  missing (LineageRequest.src_asset_id data) = true
  \/ missing (LineageRequest.dst_asset_id data) = true ->
  add_lineage db data = (missing_ids, db).
Proof.
  unfold add_lineage. rewrite !missing_falsy.
  intros [-> | ->]; rewrite ?orb_true_r; done.
Qed.

(** A request with both ids: the two lookups, then the insert. *)
Lemma add_lineage_present (db : Database) (data : LineageRequest.t) (s d : Z) :
  LineageRequest.src_asset_id data = Py.Given s ->
  LineageRequest.dst_asset_id data = Py.Given d ->
  s <> 0 -> d <> 0 ->
  add_lineage db data =
  match asset_get db s, asset_get db d with
  | Py.Raise e, _ => ((ErrorOf e, 500), db)
  | Py.Ok _, Py.Raise e => ((ErrorOf e, 500), db)
  | Py.Ok (Some _), Py.Ok (Some _) =>
      ((EdgeCreated (next_id (map Lineage.id (lineage db))), 201),
       mkDatabase (assets db)
         (lineage db ++ [Lineage.mk (next_id (map Lineage.id (lineage db))) s d
                                    (default "derives" (LineageRequest.relation data))])
         (claims db))
  | Py.Ok _, Py.Ok _ => ((Error "One or both asset IDs do not exist", 404), db)
  end.
Proof.
  intros Hs Hd Hs0 Hd0. unfold add_lineage. rewrite Hs, Hd; simpl.
  apply Z.eqb_neq in Hs0, Hd0. rewrite Hs0, Hd0; simpl.
  destruct (asset_get db s) as [[x|]|e]; simpl; [| | done];
    destruct (asset_get db d) as [[y|]|e']; done.
Qed.

Lemma missing_false_inv (f : Py.field Z) :
  missing f = false -> exists k, f = Py.Given k /\ k <> 0.
Proof.
  destruct f as [| |k]; simpl; try done. intros Hk%Z.eqb_neq. eauto.
Qed.

(** What a call of [add_lineage] can do to the store. *)
Lemma add_lineage_cases (db : Database) (data : LineageRequest.t) :
  (snd (fst (add_lineage db data)) <> 201 /\ snd (add_lineage db data) = db)
  \/ exists s d,
       LineageRequest.src_asset_id data = Py.Given s
       /\ LineageRequest.dst_asset_id data = Py.Given d
       /\ s ∈ map Asset.id (assets db)
       /\ d ∈ map Asset.id (assets db)
       /\ add_lineage db data =
          ((EdgeCreated (next_id (map Lineage.id (lineage db))), 201),
           mkDatabase (assets db)
             (lineage db ++ [Lineage.mk (next_id (map Lineage.id (lineage db))) s d
                                        (default "derives" (LineageRequest.relation data))])
             (claims db)).
Proof.
  destruct (missing (LineageRequest.src_asset_id data)) eqn:Hms.
  { left. rewrite add_lineage_missing by auto. done. }
  destruct (missing (LineageRequest.dst_asset_id data)) eqn:Hmd.
  { left. rewrite add_lineage_missing by auto. done. }
  apply missing_false_inv in Hms as (s & Hs & Hs0).
  apply missing_false_inv in Hmd as (d & Hd & Hd0).
  rewrite (add_lineage_present db data s d Hs Hd Hs0 Hd0).
  destruct (decide (s ∈ map Asset.id (assets db))) as [Hsin | Hsout];
    destruct (decide (d ∈ map Asset.id (assets db))) as [Hdin | Hdout].
  - right. exists s, d. split_and!; try done.
    destruct (asset_get_stored db s Hsin) as (x & -> & _).
    destruct (asset_get_stored db d Hdin) as (y & -> & _). done.
  - left. destruct (asset_get_stored db s Hsin) as (x & -> & _).
    rewrite (asset_get_absent db d Hdout). by destruct (int64 d).
  - left. rewrite (asset_get_absent db s Hsout).
    destruct (int64 s); [| done]. by destruct (asset_get db d) as [[y|]|e].
  - left. rewrite (asset_get_absent db s Hsout).
    destruct (int64 s); [| done]. rewrite (asset_get_absent db d Hdout).
    by destruct (int64 d).
Qed.

(** C3 (as amended). [add_lineage] fails with a validation error (400)
    when the source id or the destination id is missing (absent, null or
    zero); with both ids present and within the store's 64-bit integers it
    fails with a not-found error (404) when either does not name a stored
    asset; with both present and one outside the 64 bits the lookup raises
    and it fails with status 500; and whenever it does not answer 201 the
    store is left as it was, so no edge is created. *)
Theorem add_lineage_failures (db : Database) (data : LineageRequest.t) :
  let src := LineageRequest.src_asset_id data in
  let dst := LineageRequest.dst_asset_id data in
  (missing src = true \/ missing dst = true ->
     ValidationError (fst (add_lineage db data)) /\ snd (add_lineage db data) = db)
  /\ (missing src = false -> missing dst = false ->
      fits src -> fits dst ->
      ~ refers_to_asset db src \/ ~ refers_to_asset db dst ->
      NotFoundError (fst (add_lineage db data)) /\ snd (add_lineage db data) = db)
  /\ (missing src = false -> missing dst = false ->
      overflows db src \/ overflows db dst ->
      snd (fst (add_lineage db data)) = 500 /\ snd (add_lineage db data) = db)
  /\ (snd (fst (add_lineage db data)) <> 201 -> snd (add_lineage db data) = db).
Proof.
  intros src dst. subst src dst. split_and!.
  - intros H. by rewrite add_lineage_missing.
  - intros Hms Hmd Hfs Hfd Hno.
    apply missing_false_inv in Hms as (s & Hs & Hs0).
    apply missing_false_inv in Hmd as (d & Hd & Hd0).
    rewrite (add_lineage_present db data s d Hs Hd Hs0 Hd0).
    unfold asset_get. rewrite !bindable_int64 by auto.
    destruct (query_asset db s) as [x|] eqn:Hqs;
      destruct (query_asset db d) as [y|] eqn:Hqd; try done.
    exfalso. destruct Hno as [Hno|Hno]; apply Hno; eexists; (split; [done |]);
      apply query_asset_Some; by eexists.
  - intros Hms Hmd Hover.
    apply missing_false_inv in Hms as (s & Hs & Hs0).
    apply missing_false_inv in Hmd as (d & Hd & Hd0).
    rewrite (add_lineage_present db data s d Hs Hd Hs0 Hd0).
    destruct Hover as [(k & Hk & Hik & Hout) | (k & Hk & Hik & Hout)].
    + assert (k = s) as -> by congruence.
      rewrite (asset_get_absent db s Hout), Hik. done.
    + assert (k = d) as -> by congruence.
      rewrite (asset_get_absent db d Hout), Hik.
      by destruct (asset_get db s) as [[x|]|e].
  - intros Hst. by destruct (add_lineage_cases db data) as [[_ ?] | (? & ? & _ & _ & _ & _ & E)];
      [| rewrite E in Hst].
Qed.

Lemma add_lineage_failures_witness :
  (ValidationError (fst (add_lineage demo_db no_source))
   /\ snd (add_lineage demo_db no_source) = demo_db)
  /\ (NotFoundError (fst (add_lineage demo_db unknown_target))
      /\ snd (add_lineage demo_db unknown_target) = demo_db)
  /\ (snd (fst (add_lineage demo_db beyond_target)) = 500
      /\ snd (add_lineage demo_db beyond_target) = demo_db)
  /\ snd (add_lineage demo_db unknown_target) = demo_db.
Proof.
  assert (Hghost : ~ refers_to_asset demo_db (Py.Given 99)).
  { intros (k & E & Hin). injection E as <-.
    revert Hin. apply (bool_decide_unpack _). vm_compute. exact I. }
  assert (Hfit1 : fits (Py.Given 1)) by (intros k E; by injection E as <-).
  assert (Hfit99 : fits (Py.Given 99)) by (intros k E; by injection E as <-).
  assert (Hover : overflows demo_db (Py.Given (2 ^ 63))).
  { exists (2 ^ 63). split; [reflexivity | split; [reflexivity |]].
    apply (bool_decide_unpack _). vm_compute. exact I. }
  split; [| split; [| split]].
  - exact (proj1 (add_lineage_failures demo_db no_source) (or_introl eq_refl)).
  - exact (proj1 (proj2 (add_lineage_failures demo_db unknown_target))
             eq_refl eq_refl Hfit1 Hfit99 (or_intror Hghost)).
  - exact (proj1 (proj2 (proj2 (add_lineage_failures demo_db beyond_target)))
             eq_refl eq_refl (or_intror Hover)).
  - exact (proj2 (proj2 (proj2 (add_lineage_failures demo_db unknown_target)))
             ltac:(discriminate)).
Defined.

(** C3 as stated fails for an id beyond the 64 bits: the destination
    names no stored asset, yet the answer is not the not-found error: the
    lookup raises and the handler answers 500. *)
Lemma add_lineage_overflow :
  add_lineage demo_db beyond_target = ((ErrorOf Py.OverflowError, 500), demo_db)
  /\ query_asset demo_db (2 ^ 63) = None.
Proof. split; reflexivity. Qed.

(** C5 (as amended). For every pair of non-zero identifiers of stored
    assets, [add_lineage] succeeds, and a following [get_lineage] on either
    endpoint lists the new edge exactly once when the two endpoints differ,
    and exactly twice (as outgoing and as incoming) when they are the same
    asset. *)
Theorem add_lineage_then_get (db : Database) (data : LineageRequest.t) (s d : Z) :
  LineageRequest.src_asset_id data = Py.Given s ->
  LineageRequest.dst_asset_id data = Py.Given d ->
  s <> 0 -> d <> 0 ->
  s ∈ map Asset.id (assets db) ->
  d ∈ map Asset.id (assets db) ->
  let k := next_id (map Lineage.id (lineage db)) in
  let edge := Edge.mk k s d (default "derives" (LineageRequest.relation data)) in
  let db' := snd (add_lineage db data) in
  let times : nat := if decide (s = d) then 2%nat else 1%nat in
  fst (add_lineage db data) = (EdgeCreated k, 201)
  /\ count_edge edge (edges_of (get_lineage db' s)) = times
  /\ count_edge edge (edges_of (get_lineage db' d)) = times.
Proof.
  intros Hsrc Hdst Hs Hd Hes Hed k edge db' times.
  assert (Hadd : add_lineage db data =
            ((EdgeCreated k, 201),
             mkDatabase (assets db)
               (lineage db ++ [Lineage.mk k s d (default "derives" (LineageRequest.relation data))])
               (claims db))).
  { rewrite (add_lineage_present db data s d Hsrc Hdst Hs Hd).
    destruct (asset_get_stored db s Hes) as (x & -> & _).
    destruct (asset_get_stored db d Hed) as (y & -> & _). done. }
  subst db'. rewrite Hadd; simpl. split; [done |].
  assert (Hfresh : Edge.id edge ∉ map Lineage.id (lineage db)) by apply next_id_fresh.
  rewrite (get_lineage_touched _ s
             (Lineage.mk k s d (default "derives" (LineageRequest.relation data))));
    [| apply elem_of_app; right; by left | by left].
  rewrite (get_lineage_touched _ d
             (Lineage.mk k s d (default "derives" (LineageRequest.relation data))));
    [| apply elem_of_app; right; by left | by right].
  unfold neighborhood, edges_of, outgoing_of, incoming_of; simpl.
  rewrite !filter_app, !map_app, !count_edge_app.
  rewrite !(count_edge_stored _ _ _ Hfresh).
  rewrite !filter_cons, !filter_nil; simpl. subst times.
  unfold count_edge.
  destruct (decide (s = d)) as [->|Hne]; repeat case_decide; try congruence;
    simpl; rewrite ?filter_cons, ?filter_nil; repeat case_decide; done.
Qed.

Lemma add_lineage_then_get_witness :
  (1 ∈ map Asset.id (assets demo_db))
  /\ (3 ∈ map Asset.id (assets demo_db))
  /\ fst (add_lineage demo_db policy_to_reserve) = (EdgeCreated 3, 201)
  /\ count_edge (Edge.mk 3 1 3 "feeds")
       (edges_of (get_lineage (snd (add_lineage demo_db policy_to_reserve)) 1)) = 1%nat
  /\ count_edge (Edge.mk 3 1 3 "feeds")
       (edges_of (get_lineage (snd (add_lineage demo_db policy_to_reserve)) 3)) = 1%nat.
Proof.
  assert (H1 : 1 ∈ map Asset.id (assets demo_db)).
  { apply (bool_decide_unpack _). vm_compute. exact I. }
  assert (H3 : 3 ∈ map Asset.id (assets demo_db)).
  { apply (bool_decide_unpack _). vm_compute. exact I. }
  split; [exact H1 | split; [exact H3 |]].
  exact (add_lineage_then_get demo_db policy_to_reserve 1 3 eq_refl eq_refl
           ltac:(discriminate) ltac:(discriminate) H1 H3).
Defined.

(** C5 as stated fails on a self-loop: the edge from asset 1 to itself is
    created, and the neighbourhood of asset 1 then lists it twice. *)
Lemma self_loop_listed_twice :
  fst (add_lineage demo_db self_loop) = (EdgeCreated 3, 201)
  /\ edges_of (get_lineage (snd (add_lineage demo_db self_loop)) 1)
     = [Edge.mk 1 1 2 "feeds"; Edge.mk 3 1 1 "derives"; Edge.mk 3 1 1 "derives"]
  /\ count_edge (Edge.mk 3 1 1 "derives")
       (edges_of (get_lineage (snd (add_lineage demo_db self_loop)) 1)) = 2%nat.
Proof. repeat split; reflexivity. Qed.

(** ** Asset deletion *)

(** [delete_asset] never touches the lineage table. *)
Lemma delete_asset_keeps_lineage (db : Database) (asset_id : Z) :
  lineage (snd (delete_asset db asset_id)) = lineage db.
Proof. unfold delete_asset. by destruct (asset_get db asset_id) as [[a|]|e]. Qed.

(** After a successful delete the asset is gone. *)
Lemma delete_asset_removes (db : Database) (asset_id : Z) :
  snd (fst (delete_asset db asset_id)) = 200 ->
  asset_id ∉ map Asset.id (assets (snd (delete_asset db asset_id))).
Proof.
  unfold delete_asset, asset_get.
  destruct (bindable _ asset_id); [| done].
  unfold query_asset.
  destruct (List.find _ (assets db)) as [a|] eqn:Hfind; simpl; [| done].
  intros _ (x & -> & Hx)%list_elem_of_fmap.
  apply list_elem_of_filter in Hx as [Hne _].
  apply find_some in Hfind as [_ Heq]. apply Z.eqb_eq in Heq. congruence.
Qed.

(** C4, on the code: deleting the seeded asset 1 succeeds and removes the
    asset, and the edge from 1 to 2 is still stored, so a stored edge has
    the deleted asset as an endpoint and the neighbourhood of asset 2
    still lists it. *)
Theorem delete_asset_leaves_dangling_edge :
  fst (delete_asset demo_db 1) = (Deleted, 200)
  /\ query_asset (snd (delete_asset demo_db 1)) 1 = None
  /\ lineage (snd (delete_asset demo_db 1))
     = [Lineage.mk 1 1 2 "feeds"; Lineage.mk 2 2 3 "drives"]
  /\ edges_of (get_lineage (snd (delete_asset demo_db 1)) 2)
     = [Edge.mk 2 2 3 "drives"; Edge.mk 1 1 2 "feeds"]
  /\ map AssetDict.id (nodes_of (get_lineage (snd (delete_asset demo_db 1)) 2)) = [2; 3].
Proof. repeat split; reflexivity. Qed.

(** Edge creation against the deleted asset is refused. *)
Example add_lineage_after_delete :
  fst (add_lineage (snd (delete_asset demo_db 1)) policy_to_reserve)
  = (Error "One or both asset IDs do not exist", 404).
Proof. reflexivity. Qed.

(** * Further properties of the catalog *)

(** ** Access control *)



(** X2. After [seed_users] on an empty users table the editor key
    passes both decorators, the viewer key passes [require_view] and is
    answered 403 "Forbidden for role: viewer" by [require_edit], and a
    request without a key is answered 401; a refused call does not run the
    handler. *)
Theorem seeded_keys {B : Type} (error : string -> B)
    (fn : Catalog -> (B * Z) * Catalog) (c : Catalog) :
  user_table c = [] ->
  let c' := seed_users c in
  require_edit error fn (Some "editor-key-123") c' = fn c'
  /\ require_view error fn (Some "editor-key-123") c' = fn c'
  /\ require_view error fn (Some "viewer-key-123") c' = fn c'
  /\ require_edit error fn (Some "viewer-key-123") c'
     = ((error "Forbidden for role: viewer", 403), c')
  /\ require_edit error fn None c' = ((error "Missing or invalid API key", 401), c').
Proof.
  intros Hempty c'. subst c'. unfold seed_users. rewrite Hempty.
  repeat split; reflexivity.
Qed.

(** ** Lineage *)

Lemma neighborhood_edges_iff (db : Database) (a : Z) (x : Edge.t) :
  x ∈ edges_of (neighborhood db a)
  <-> exists e, e ∈ lineage db /\ x = edge_to_dict e
             /\ (Lineage.src_asset_id e = a \/ Lineage.dst_asset_id e = a).
Proof.
  unfold neighborhood, edges_of, outgoing_of, incoming_of; simpl.
  rewrite list_elem_of_fmap. split.
  - intros (e & -> & [He|He]%elem_of_app); apply list_elem_of_filter in He as [H Hin];
      exists e; auto.
  - intros (e & He & -> & H). exists e. split; [done |].
    apply elem_of_app. destruct H; [left | right]; by apply list_elem_of_filter.
Qed.

(** X3. [get_lineage] returns exactly the stored edges that touch the
    asset: an edge dictionary is listed if and only if it renders a stored
    edge whose source or destination is the asset. *)
Theorem get_lineage_edges_iff (db : Database) (a : Z) (x : Edge.t) :
  x ∈ edges_of (get_lineage db a)
  <-> exists e, e ∈ lineage db /\ x = edge_to_dict e
             /\ (Lineage.src_asset_id e = a \/ Lineage.dst_asset_id e = a).
Proof.
  destruct (get_lineage_cases db a) as [-> | (-> & _ & Hno)];
    [apply neighborhood_edges_iff |].
  simpl. split; [by intros ?%elem_of_nil |].
  intros (e & He & _ & Hend). destruct (Hno e He). by destruct Hend.
Qed.

(** X4. When no stored edge dangles, the answer of [get_lineage] is
    self-contained: the source and the target of every listed edge are
    among the listed nodes. *)
Theorem get_lineage_self_contained (db : Database) (a : Z) :
  edges_resolved db ->
  Forall (fun x => Edge.source x ∈ map AssetDict.id (nodes_of (get_lineage db a))
                   /\ Edge.target x ∈ map AssetDict.id (nodes_of (get_lineage db a)))
         (edges_of (get_lineage db a)).
Proof.
  intros Hres.
  destruct (get_lineage_cases db a) as [-> | (-> & _ & _)]; [| by constructor].
  apply Forall_forall. intros x Hx.
  apply neighborhood_edges_iff in Hx as (e & He & -> & Hend).
  destruct (Hres e He) as [Hs Hd].
  unfold neighborhood, nodes_of; simpl. rewrite !nodes_ids.
  unfold node_ids_of. rewrite !elem_of_list_to_set. simpl.
  rewrite !elem_of_cons, !elem_of_app, !list_elem_of_fmap.
  apply list_elem_of_fmap in Hs, Hd.
  split; (split; [| done]).
  - destruct Hend as [<- | <-]; [by left |].
    right; right. exists e. split; [done |].
    unfold incoming_of. by apply list_elem_of_filter.
  - destruct Hend as [<- | <-]; [| by left].
    right; left. exists e. split; [done |].
    unfold outgoing_of. by apply list_elem_of_filter.
Qed.

(** X5. [add_lineage] never touches the assets or the claims and never
    changes or removes a stored edge: the lineage table afterwards is the
    old one followed by one new edge when the answer is 201 and by nothing
    otherwise. *)
Theorem add_lineage_frame (db : Database) (data : LineageRequest.t) :
  let db' := snd (add_lineage db data) in
  assets db' = assets db
  /\ claims db' = claims db
  /\ exists added, lineage db' = lineage db ++ added
       /\ length added = if decide (snd (fst (add_lineage db data)) = 201) then 1%nat else 0%nat.
Proof.
  destruct (add_lineage_cases db data) as [[Hst Hdb] | (s & d & _ & _ & _ & _ & Hadd)]; simpl.
  - rewrite Hdb. split_and!; try done. exists []. rewrite app_nil_r. by rewrite decide_False.
  - rewrite Hadd; simpl. split_and!; try done. by eexists.
Qed.

(** X6. [add_lineage] keeps the no-dangling-edge invariant: if every
    stored edge has stored endpoints before the call, so it is after. *)
Theorem add_lineage_keeps_edges_resolved (db : Database) (data : LineageRequest.t) :
  edges_resolved db -> edges_resolved (snd (add_lineage db data)).
Proof.
  intros Hres.
  destruct (add_lineage_cases db data) as [[_ ->] | (s & d & _ & _ & Hs & Hd & ->)];
    [done |].
  intros e [He | ->%list_elem_of_singleton]%elem_of_app; simpl; [by apply Hres | done].
Qed.

Lemma query_asset_None (db : Database) (k : Z) :
  query_asset db k = None <-> k ∉ map Asset.id (assets db).
Proof.
  split.
  - intros H Hin. apply query_asset_Some in Hin as [x Hx]. congruence.
  - intros H. destruct (query_asset db k) eqn:E; [| done].
    exfalso. apply H, query_asset_Some. by eexists.
Qed.

(** What a call of [delete_asset] can do: 404 for an absent id within
    the 64 bits, 500 for an absent id beyond them, 200 and the row removed
    for a stored one. *)
Lemma delete_asset_cases (db : Database) (a : Z) :
  ((a ∉ map Asset.id (assets db))
   /\ delete_asset db a =
      ((if int64 a then (Error "Not found", 404) else (Uncaught Py.OverflowError, 500)), db))
  \/ ((a ∈ map Asset.id (assets db))
      /\ delete_asset db a =
         ((Deleted, 200),
          mkDatabase (filter (fun x => Asset.id x ≠ a) (assets db)) (lineage db) (claims db))).
Proof.
  unfold delete_asset.
  destruct (decide (a ∈ map Asset.id (assets db))) as [Hin | Hout].
  - right. split; [done |].
    destruct (asset_get_stored db a Hin) as (x & -> & Hx).
    apply find_some in Hx as [_ Heq]. apply Z.eqb_eq in Heq. by subst a.
  - left. split; [done |]. rewrite (asset_get_absent db a Hout). by destruct (int64 a).
Qed.

Lemma delete_asset_gone (db : Database) (a : Z) :
  a ∉ map Asset.id (assets (snd (delete_asset db a))).
Proof.
  destruct (delete_asset_cases db a) as [[Hno ->] | [_ ->]]; simpl; [done |].
  intros (x & -> & Hx)%list_elem_of_fmap.
  by apply list_elem_of_filter in Hx as [Hne _].
Qed.

(** X7. Deleting the same asset again changes nothing, whatever the
    first call did, and is answered 404 "Not found" when the id is within
    the store's 64-bit integers and 500, the lookup raising OverflowError,
    when it is not. *)
Theorem delete_asset_twice (db : Database) (a : Z) :
  delete_asset (snd (delete_asset db a)) a
  = ((if int64 a then (Error "Not found", 404) else (Uncaught Py.OverflowError, 500)),
     snd (delete_asset db a)).
Proof.
  destruct (delete_asset_cases (snd (delete_asset db a)) a) as [[_ H] | [Hin _]]; [done |].
  by apply delete_asset_gone in Hin.
Qed.

(** X8. [delete_asset] affects the named asset only: every other asset
    is looked up as before, and the lineage and claims tables are
    untouched. *)
Theorem delete_asset_frame (db : Database) (a b : Z) :
  b <> a ->
  query_asset (snd (delete_asset db a)) b = query_asset db b
  /\ lineage (snd (delete_asset db a)) = lineage db
  /\ claims (snd (delete_asset db a)) = claims db.
Proof.
  intros Hne.
  destruct (delete_asset_cases db a) as [[_ ->] | [_ ->]]; simpl; [done |].
  split; [| done]. unfold query_asset; simpl.
  induction (assets db) as [|x l IH]; [done |].
  rewrite filter_cons. simpl. destruct (decide (Asset.id x ≠ a)) as [Hx | Hx]; simpl.
  - destruct (Z.eqb (Asset.id x) b); [done | apply IH].
  - apply dec_stable in Hx. rewrite Hx.
    destruct (Z.eqb_spec a b); [congruence | apply IH].
Qed.

(** X9. After [delete_asset] of an asset, an edge request that names it
    as source or destination is refused (never 201) and stores nothing. *)
Theorem add_lineage_after_delete_refused (db : Database) (a : Z) (data : LineageRequest.t) :
  LineageRequest.src_asset_id data = Py.Given a
  \/ LineageRequest.dst_asset_id data = Py.Given a ->
  let db' := snd (delete_asset db a) in
  snd (fst (add_lineage db' data)) <> 201 /\ snd (add_lineage db' data) = db'.
Proof.
  intros Hend db'.
  destruct (add_lineage_cases db' data) as [H | (s & d & Hs & Hd & Hsin & Hdin & _)];
    [done |].
  exfalso. subst db'.
  destruct Hend as [E | E]; rewrite E in *; simplify_eq; by eapply delete_asset_gone.
Qed.

Ltac rule_cases c :=
  unfold assign_results, apply_rules, RULES; simpl;
  destruct (300000 <? Claim.amount c)%float eqn:Hamount,
    (Z.leb 3 (Claim.prior_claims c)) eqn:Hprior,
    (bool_decide (Claim.channel c = "online")) eqn:Hchannel,
    (bool_decide (Py.lower (Claim.city c) ∈ unknown_cities)) eqn:Hcity.

Lemma fraud_label_cases (c : Claim.t) :
  Claim.fraud_label (fst (assign_results c)) =
  Some (if (300000 <? Claim.amount c)%float
           && (Z.leb 3 (Claim.prior_claims c)
               || bool_decide (Py.lower (Claim.city c) ∈ unknown_cities))
        then "SUSPICIOUS" else "OK").
Proof. rule_cases c; reflexivity. Qed.

(** X10. With the rule table of the program a claim is labelled
    SUSPICIOUS exactly when its amount is above 300000 and it has three or
    more prior claims or an unknown city; the online channel never decides
    the label. *)
Theorem suspicious_iff (c : Claim.t) :
  Claim.fraud_label (fst (assign_results c)) = Some "SUSPICIOUS"
  <-> (300000 <? Claim.amount c)%float = true
      /\ (3 <= Claim.prior_claims c \/ Py.lower (Claim.city c) ∈ unknown_cities).
Proof.
  rewrite fraud_label_cases.
  destruct (300000 <? Claim.amount c)%float; simpl.
  - destruct (Z.leb_spec 3 (Claim.prior_claims c)); simpl;
      [split; [intros _; split; [done | by left] | done] |].
    case_bool_decide; simpl;
      [split; [intros _; split; [done | by right] | done] |].
    split; [done |]. intros [_ [?|?]]; [lia | done].
  - split; [done | by intros [? _]].
Qed.

(** X11. The rule loop yields a score between 0 and 90, so the
    [min(score, 100.0)] of the handler never changes it, and the stored
    fraud score is the plain sum. *)
Theorem score_never_clamped (c : Claim.t) :
  let score := fst (apply_rules RULES c 0%float []) in
  (0 <=? score)%float = true
  /\ (score <=? 90)%float = true
  /\ Py.min score 100%float = score
  /\ Claim.fraud_score (fst (assign_results c)) = Some score.
Proof. rule_cases c; repeat split; reflexivity. Qed.

(** What a call of [score_claim] can do to the store. *)
Lemma score_claim_store (db : Database) (data : ScoreRequest.t) :
  snd (score_claim db data) = db
  \/ exists row,
       snd (score_claim db data) = mkDatabase (assets db) (lineage db) (claims db ++ [row])
       /\ Claim.claim_number row ∉ map Claim.claim_number (claims db).
Proof.
  destruct (parse_claim data) as [claim|e] eqn:Hparse.
  - destruct (decide (store_accepts db claim)) as [Hacc|Hrej].
    + right. rewrite (score_claim_accepted db data claim Hparse Hacc).
      destruct Hacc as (_ & _ & _ & _ & Hfresh).
      eexists. split; [reflexivity |].
      rewrite assign_results_spec; simpl. exact Hfresh.
    + left. destruct (score_claim_refused db data) as [e He].
      * intros c Hc. congruence.
      * by rewrite He.
  - left. destruct (score_claim_refused db data) as [e' He]; [congruence |].
    by rewrite He.
Qed.

(** X12. [score_claim] is all or nothing: either it answers 500 and
    the store is unchanged, or it answers 200 and the store gained exactly
    one claim row, carrying the claim number, label and score of the
    response, under a number that was not stored before; assets and
    lineage are never touched. *)
Theorem score_claim_effect (db : Database) (data : ScoreRequest.t) :
  (snd (fst (score_claim db data)) = 500 /\ snd (score_claim db data) = db)
  \/ exists number label score reasons row,
       fst (score_claim db data) = (Scored (Some number) (Some label) (Some score) reasons, 200)
       /\ snd (score_claim db data)
          = mkDatabase (assets db) (lineage db) (claims db ++ [row])
       /\ Claim.claim_number row = Some number
       /\ Claim.fraud_label row = Some label
       /\ Claim.fraud_score row = Some score
       /\ Some number ∉ map Claim.claim_number (claims db).
Proof.
  destruct (parse_claim data) as [claim|e] eqn:Hparse.
  - destruct (decide (store_accepts db claim)) as [Hacc|Hrej].
    + right. rewrite (score_claim_accepted db data claim Hparse Hacc).
      destruct Hacc as ([n Hn] & _ & _ & _ & Hfresh).
      exists n, (label_of (score_of claim)), (score_of claim), (reasons_of claim).
      eexists. split_and!; [by rewrite Hn | reflexivity | | | | by rewrite <- Hn];
        rewrite assign_results_spec; simpl; done.
    + left. destruct (score_claim_refused db data) as [e He].
      * intros c Hc. congruence.
      * by rewrite He.
  - left. destruct (score_claim_refused db data) as [e' He]; [congruence |].
    by rewrite He.
Qed.

(** ** Tags *)

Lemma query_tag_Some (tags : list Tag.t) (n : string) :
  n ∈ map Tag.name tags <-> is_Some (query_tag tags n).
Proof.
  unfold query_tag. split.
  - intros (t & -> & Ht)%list_elem_of_fmap.
    destruct (List.find _ tags) as [x|] eqn:Hfind; [by eexists |].
    apply list_elem_of_In in Ht. apply (find_none _ _ Hfind) in Ht.
    by rewrite bool_decide_eq_false in Ht.
  - intros [t Ht]. apply find_some in Ht as [Hin Heq].
    apply bool_decide_eq_true in Heq as <-. apply list_elem_of_fmap.
    exists t. split; [done | by apply list_elem_of_In].
Qed.

Lemma query_tag_None (tags : list Tag.t) (n : string) :
  query_tag tags n = None <-> n ∉ map Tag.name tags.
Proof.
  split.
  - intros H Hin. apply query_tag_Some in Hin as [x Hx]. congruence.
  - intros H. destruct (query_tag tags n) eqn:E; [| done].
    exfalso. apply H, query_tag_Some. by eexists.
Qed.

(** X13. Creating a tag under a non-empty name that is not stored
    answers 201 with that name, and [list_tags] then returns the old names
    followed by the new one; the other tables are untouched. *)
Theorem create_tag_then_list (c : Catalog) (name : Py.field string) (n : string) :
  name = Py.Given n ->
  n <> "" ->
  n ∉ map Tag.name (tag_table c) ->
  fst (create_tag c name) = (TagCreated n, 201)
  /\ list_tags (snd (create_tag c name))
     = (TagNames (map Tag.name (tag_table c) ++ [n]), 200)
  /\ tables (snd (create_tag c name)) = tables c
  /\ user_table (snd (create_tag c name)) = user_table c.
Proof.
  intros -> Hn Hfresh. unfold create_tag, list_tags; simpl.
  rewrite bool_decide_eq_false_2 by done.
  apply query_tag_None in Hfresh. rewrite Hfresh; simpl.
  by rewrite map_app.
Qed.

(** X14. [create_tag] answers 201 exactly for a non-empty name that is
    not stored yet; for a missing, null or empty name and for a stored name
    it answers 400 and changes nothing. *)
Theorem create_tag_rejects (c : Catalog) (name : Py.field string) :
  (snd (fst (create_tag c name)) = 201
   <-> exists n, name = Py.Given n /\ n <> "" /\ n ∉ map Tag.name (tag_table c))
  /\ (snd (fst (create_tag c name)) <> 201 ->
      snd (fst (create_tag c name)) = 400 /\ snd (create_tag c name) = c).
Proof.
  unfold create_tag.
  destruct name as [| |n]; simpl; try (split; [split; [done | by intros (? & ? & _)] | done]).
  case_bool_decide as Hn; simpl.
  { split; [split; [done | intros (? & ? & ? & _); congruence] | done]. }
  destruct (query_tag (tag_table c) n) as [t|] eqn:Hq; simpl.
  - split; [split; [done |] | done].
    intros (? & ? & _ & Hfresh). simplify_eq. apply query_tag_None in Hfresh. congruence.
  - split; [| done]. split; [intros _ | done].
    exists n. split_and!; try done. by apply query_tag_None.
Qed.

(** ** Assets *)

(** X15. After [delete_asset] of an id, [get_asset] of that id answers
    404 "Not found" when the id is within the store's 64-bit integers, and
    500, the lookup raising OverflowError, when it is not. *)
Theorem get_asset_after_delete (db : Database) (a : Z) :
  get_asset (snd (delete_asset db a)) a
  = if int64 a then (CatalogError "Not found", 404)
    else (Unhandled Py.OverflowError, 500).
Proof.
  unfold get_asset. rewrite (asset_get_absent _ _ (delete_asset_gone db a)).
  by destruct (int64 a).
Qed.

(** X16. [list_assets] lists exactly the assets that pass both
    filters: the type filter passes an asset when the argument is absent,
    empty or the asset's type, the tag filter when the argument is absent,
    empty or one of the asset's tags. *)
Theorem list_assets_spec (db : Database) (typ tag : option string) (x : AssetDict.t) :
  x ∈ listed (list_assets db typ tag)
  <-> exists a, a ∈ assets db /\ x = asset_to_dict a
        /\ (typ = None \/ typ = Some "" \/ typ = Some (Asset.type a))
        /\ (tag = None \/ tag = Some "" \/ exists t, t ∈ Asset.tags a /\ tag = Some t).
Proof.
  unfold list_assets, listed; simpl. rewrite list_elem_of_fmap.
  assert (Htyp : forall a, (typ = None \/ typ = Some "" \/ typ = Some (Asset.type a))
            <-> match given_text typ with Some t => Asset.type a = t | None => True end).
  { intros a. destruct typ as [t|]; simpl.
    - case_bool_decide as Ht; [subst; split; auto |].
      split; [intros [?|[?|?]]; congruence | intros ->; auto].
    - split; auto. }
  assert (Htag : forall a, (tag = None \/ tag = Some "" \/ exists t, t ∈ Asset.tags a /\ tag = Some t)
            <-> match given_text tag with Some t => t ∈ Asset.tags a | None => True end).
  { intros a. destruct tag as [t|]; simpl.
    - case_bool_decide as Ht; [subst; split; auto |].
      split; [intros [?|[?|(t' & ? & ?)]]; congruence | eauto].
    - split; auto. }
  split.
  - intros (a & -> & Ha). exists a. rewrite Htyp, Htag.
    destruct (given_text typ), (given_text tag);
      repeat (apply list_elem_of_filter in Ha as [? Ha]); done.
  - intros (a & Ha & -> & Ht & Hg). exists a. split; [done |].
    apply Htyp in Ht. apply Htag in Hg.
    destruct (given_text typ), (given_text tag);
      repeat (apply list_elem_of_filter; split; try done); done.
Qed.

Lemma collect_tags_spec (stored : list Tag.t) (names : list string) :
  collect_tags stored names =
  (filter (fun t => t ∈ map Tag.name stored) names,
   filter (fun t => t ∉ map Tag.name stored) names).
Proof.
  induction names as [|t names IH]; [done |]. simpl. rewrite IH, !filter_cons.
  destruct (query_tag stored t) as [x|] eqn:Hq.
  - assert (t ∈ map Tag.name stored) by (apply query_tag_Some; by eexists).
    rewrite decide_True by done. rewrite decide_False by auto. done.
  - apply query_tag_None in Hq.
    rewrite decide_False by done. rewrite decide_True by done. done.
Qed.

Lemma NoDup_partition {A} (P : A -> Prop) `{!forall x, Decision (P x)} (l : list A) :
  NoDup (filter P l) /\ NoDup (filter (fun x => ~ P x) l) <-> NoDup l.
Proof.
  rewrite <- (filter_app_complement P l) at 3. rewrite NoDup_app. split.
  - intros [H1 H2]. split_and!; [done | | done].
    intros x [Hx _]%list_elem_of_filter [Hnx _]%list_elem_of_filter. done.
  - intros (? & _ & ?). done.
Qed.

Lemma insert_tags_names (stored : list Tag.t) (pending : list string) :
  map Tag.name (insert_tags stored pending) = map Tag.name stored ++ pending.
Proof.
  revert stored. induction pending as [|t pending IH]; intros stored; simpl.
  - by rewrite app_nil_r.
  - rewrite IH, map_app; simpl. by rewrite <- app_assoc.
Qed.

Lemma insert_tags_ids (stored : list Tag.t) (pending : list string) :
  NoDup (map Tag.id stored) -> NoDup (map Tag.id (insert_tags stored pending)).
Proof.
  revert stored. induction pending as [|t pending IH]; intros stored Hnd; simpl; [done |].
  apply IH. rewrite map_app; simpl. apply NoDup_app. split_and!; [done | | apply NoDup_singleton].
  intros x Hx ->%list_elem_of_singleton. by apply next_id_fresh in Hx.
Qed.

Lemma insert_tags_prefix (stored : list Tag.t) (pending : list string) :
  exists added, insert_tags stored pending = stored ++ added.
Proof.
  revert stored. induction pending as [|t pending IH]; intros stored; simpl.
  - exists []. by rewrite app_nil_r.
  - destruct (IH (stored ++ [Tag.mk (next_id (map Tag.id stored)) t])) as [added ->].
    eexists. by rewrite <- app_assoc.
Qed.

(** What a call of [create_asset] can do. *)
Lemma create_asset_cases (c : Catalog) (data : AssetRequest.t) (now : string) :
  (snd (fst (create_asset c data now)) = 500 /\ snd (create_asset c data now) = c
   /\ ~ (exists name type names,
           AssetRequest.name data = Py.Given name
           /\ AssetRequest.type data = Py.Given type
           /\ Py.get_default (AssetRequest.tags data) [] = Some names
           /\ NoDup names))
  \/ exists name type names,
       AssetRequest.name data = Py.Given name
       /\ AssetRequest.type data = Py.Given type
       /\ Py.get_default (AssetRequest.tags data) [] = Some names
       /\ NoDup names
       /\ let tag_rows :=
            insert_tags (tag_table c)
              (filter (fun t => t ∉ map Tag.name (tag_table c)) names) in
          let a := Asset.mk (next_id (map Asset.id (assets (tables c)))) name type
                            (default "" (AssetRequest.description data)) now
                            (loaded_tags tag_rows names) in
          create_asset c data now =
          ((AssetBody (asset_to_dict a), 201),
           mkCatalog (mkDatabase (assets (tables c) ++ [a]) (lineage (tables c))
                                 (claims (tables c)))
                     tag_rows (user_table c)).
Proof.
  unfold create_asset.
  destruct (Py.get_default (AssetRequest.tags data) []) as [names|] eqn:Htags;
    [| left; split_and!; try done; by intros (? & ? & ? & _ & _ & ? & _)].
  rewrite collect_tags_spec.
  destruct (AssetRequest.name data) as [| |name]; simpl;
    try (left; split_and!; try done; by intros (? & ? & ? & ? & _)).
  destruct (AssetRequest.type data) as [| |type]; simpl;
    try (left; split_and!; try done; by intros (? & ? & ? & _ & ? & _)).
  destruct (decide (NoDup names)) as [Hnd|Hdup].
  - right. exists name, type, names. split_and!; try done.
    apply (NoDup_partition (fun t => t ∈ map Tag.name (tag_table c))) in Hnd as [H1 H2].
    rewrite !bool_decide_eq_true_2 by done. done.
  - left.
    assert (Hb : bool_decide (NoDup (filter (fun t => t ∉ map Tag.name (tag_table c)) names))
                 && bool_decide (NoDup (filter (fun t => t ∈ map Tag.name (tag_table c)) names))
                 = false).
    { apply not_true_is_false. intros [H2 H1]%andb_true_iff.
      apply bool_decide_eq_true in H1, H2. apply Hdup.
      by apply (NoDup_partition (fun t => t ∈ map Tag.name (tag_table c))). }
    rewrite Hb. split_and!; try done.
    intros (? & ? & ? & _ & _ & ? & ?). simplify_eq. done.
Qed.

Lemma query_asset_snoc (db : Database) (a : Asset.t) (k : Z) :
  Asset.id a ∉ map Asset.id (assets db) ->
  query_asset (mkDatabase (assets db ++ [a]) (lineage db) (claims db)) k
  = if decide (k = Asset.id a) then Some a else query_asset db k.
Proof.
  intros Hfresh. unfold query_asset; simpl.
  induction (assets db) as [|x l IH]; simpl.
  - destruct (Z.eqb_spec (Asset.id a) k); case_decide; congruence.
  - destruct (Z.eqb_spec (Asset.id x) k) as [E|E].
    + rewrite decide_False; [done |]. intros ->. apply Hfresh. rewrite <- E. by left.
    + apply IH. intros Hin. apply Hfresh. by right.
Qed.

Lemma asset_get_snoc (db : Database) (a : Asset.t) (k : Z) :
  Asset.id a ∉ map Asset.id (assets db) ->
  asset_get (mkDatabase (assets db ++ [a]) (lineage db) (claims db)) k
  = if decide (k = Asset.id a) then Py.Ok (Some a) else asset_get db k.
Proof.
  intros Hfresh. unfold asset_get. rewrite query_asset_snoc by done. simpl.
  case_decide as Hk.
  - rewrite bindable_stored; [done |]. subst k. rewrite map_app, elem_of_app. right. by left.
  - replace (bindable (map Asset.id (assets db ++ [a])) k)
      with (bindable (map Asset.id (assets db)) k); [done |].
    unfold bindable. f_equal. apply bool_decide_ext.
    rewrite map_app, elem_of_app. simpl. rewrite list_elem_of_singleton. tauto.
Qed.

Lemma omap_query_tag_names (stored : list Tag.t) (names : list string) :
  Forall (fun t => t ∈ map Tag.name stored) names ->
  map Tag.name (omap (query_tag stored) names) = names.
Proof.
  induction 1 as [|t names Ht _ IH]; [done |]. simpl.
  apply query_tag_Some in Ht as [r Hr]. rewrite Hr. simpl. f_equal; [| exact IH].
  unfold query_tag in Hr. apply find_some in Hr as [_ Hr].
  by apply bool_decide_eq_true in Hr.
Qed.

(** The tags read back are the requested names, possibly in another
    order. *)
Lemma loaded_tags_Permutation (stored : list Tag.t) (names : list string) :
  Forall (fun t => t ∈ map Tag.name stored) names ->
  loaded_tags stored names ≡ₚ names.
Proof.
  intros Hreg. unfold loaded_tags.
  transitivity (map Tag.name (omap (query_tag stored) names));
    [| by rewrite omap_query_tag_names].
  apply (fmap_Permutation Tag.name), merge_sort_Permutation.
Qed.

Lemma tag_id_le_total : Total tag_id_le.
Proof. intros t1 t2. unfold tag_id_le. lia. Qed.

(** They are the names of rows of the table, read in the order of the
    rows' ids. *)
Lemma loaded_tags_rows (stored : list Tag.t) (names : list string) :
  exists rows,
    loaded_tags stored names = map Tag.name rows
    /\ Forall (fun r => r ∈ stored) rows
    /\ Sorted Z.le (map Tag.id rows).
Proof.
  exists (merge_sort tag_id_le (omap (query_tag stored) names)).
  split_and!; [done | |].
  - apply Forall_forall. intros r Hr.
    rewrite (merge_sort_Permutation tag_id_le) in Hr.
    apply list_elem_of_omap in Hr as (t & _ & Hr).
    unfold query_tag in Hr. apply find_some in Hr as [Hr _]. by apply list_elem_of_In.
  - apply (Sorted_fmap Tag.id tag_id_le Z.le); [done |].
    apply (@Sorted_merge_sort _ tag_id_le _ tag_id_le_total).
Qed.

(** After a successful [create_asset] every requested tag is in the
    table. *)
Lemma insert_tags_registers (stored : list Tag.t) (names : list string) :
  Forall (fun t => t ∈ map Tag.name
                         (insert_tags stored (filter (fun t => t ∉ map Tag.name stored) names)))
         names.
Proof.
  apply Forall_forall. intros t Ht. rewrite insert_tags_names, elem_of_app.
  destruct (decide (t ∈ map Tag.name stored)); [by left | right].
  by apply list_elem_of_filter.
Qed.

(** X17. A [create_asset] request with a name, a type and a tag list
    without repetition answers 201 with the new asset under a fresh id; the
    tags of the answer are the requested names, reordered: they are the
    names of rows of the tags table read in the order of the rows' ids, not
    in request order.  [get_asset] of the new id then returns the same
    dictionary, and every other id is answered as before. *)
Theorem create_asset_then_get (c : Catalog) (data : AssetRequest.t) (now : string)
    (name type : string) (names : list string) :
  AssetRequest.name data = Py.Given name ->
  AssetRequest.type data = Py.Given type ->
  Py.get_default (AssetRequest.tags data) [] = Some names ->
  NoDup names ->
  let c' := snd (create_asset c data now) in
  exists tags rows,
    let d := AssetDict.mk (next_id (map Asset.id (assets (tables c)))) name type
                          (default "" (AssetRequest.description data)) now tags in
    fst (create_asset c data now) = (AssetBody d, 201)
    /\ tags ≡ₚ names
    /\ tags = map Tag.name rows
    /\ Forall (fun r => r ∈ tag_table c') rows
    /\ Sorted Z.le (map Tag.id rows)
    /\ get_asset (tables c') (AssetDict.id d) = (AssetBody d, 200)
    /\ (forall k, k <> AssetDict.id d -> get_asset (tables c') k = get_asset (tables c) k).
Proof.
  intros Hname Htype Htags Hnd c'.
  destruct (create_asset_cases c data now)
    as [(_ & _ & Hno) | (name' & type' & names' & Hn' & Ht' & Hg' & _ & Hcreate)].
  { exfalso. apply Hno. eauto 10. }
  assert (name' = name) as -> by congruence.
  assert (type' = type) as -> by congruence.
  assert (names' = names) as -> by congruence.
  subst c'. simpl in Hcreate. rewrite Hcreate; simpl.
  set (tag_rows := insert_tags (tag_table c)
                     (filter (fun t => t ∉ map Tag.name (tag_table c)) names)).
  destruct (loaded_tags_rows tag_rows names) as (rows & Hrows & Hin & Hsorted).
  exists (loaded_tags tag_rows names), rows.
  split; [done |].
  split; [apply loaded_tags_Permutation, insert_tags_registers |].
  split_and!; try done; unfold get_asset.
  - rewrite asset_get_snoc by apply next_id_fresh. simpl. by rewrite decide_True.
  - intros k Hk. rewrite asset_get_snoc by apply next_id_fresh. simpl.
    by rewrite decide_False.
Qed.

(** X18. [create_asset] answers 201 exactly when name and type are
    given, the tags are not null and no tag name is repeated; otherwise it
    answers 500 and stores nothing, neither the asset nor any tag. *)
Theorem create_asset_refuses (c : Catalog) (data : AssetRequest.t) (now : string) :
  (snd (fst (create_asset c data now)) = 201
   <-> exists name type names,
         AssetRequest.name data = Py.Given name
         /\ AssetRequest.type data = Py.Given type
         /\ Py.get_default (AssetRequest.tags data) [] = Some names
         /\ NoDup names)
  /\ (snd (fst (create_asset c data now)) <> 201 ->
      snd (fst (create_asset c data now)) = 500 /\ snd (create_asset c data now) = c).
Proof.
  destruct (create_asset_cases c data now)
    as [(Hst & Hc & Hno) | (name & type & names & Hn & Ht & Hg & Hnd & Hcreate)].
  - rewrite Hst. split; [split; [done | by intros H; apply Hno in H] | done].
  - simpl in Hcreate. rewrite Hcreate; simpl. split; [| done].
    split; [intros _; eauto 10 | done].
Qed.

(** X19. A successful [create_asset] appends to the tags table the
    requested names that were not stored, in request order, keeps the old
    rows, leaves every requested name registered, and keeps tag names
    unique. *)
Theorem create_asset_registers_tags (c : Catalog) (data : AssetRequest.t) (now : string) :
  snd (fst (create_asset c data now)) = 201 ->
  exists names,
    Py.get_default (AssetRequest.tags data) [] = Some names
    /\ fst (list_tags (snd (create_asset c data now)))
       = TagNames (map Tag.name (tag_table c)
                   ++ filter (fun t => t ∉ map Tag.name (tag_table c)) names)
    /\ (forall t, t ∈ names -> t ∈ map Tag.name (tag_table (snd (create_asset c data now))))
    /\ (NoDup (map Tag.name (tag_table c)) ->
        NoDup (map Tag.name (tag_table (snd (create_asset c data now))))).
Proof.
  intros Hst.
  destruct (create_asset_cases c data now)
    as [(Hst' & _) | (name & type & names & Hn & Ht & Hg & Hnd & Hcreate)]; [congruence |].
  simpl in Hcreate. exists names. rewrite Hcreate; simpl. rewrite insert_tags_names.
  split_and!; try done.
  - intros t Ht'. apply elem_of_app.
    destruct (decide (t ∈ map Tag.name (tag_table c))); [by left | right].
    by apply list_elem_of_filter.
  - intros Hold. apply NoDup_app. split_and!; [done | | by apply NoDup_filter].
    by intros t Hin [Hout _]%list_elem_of_filter.
Qed.

Lemma next_id_positive (ids : list Z) : Forall (fun k => 1 <= k) ids -> 1 <= next_id ids.
Proof.
  destruct ids as [|i l]; simpl; [lia |]. intros [Hi _]%Forall_cons.
  assert (i <= foldr Z.max i l) by (apply foldr_max_ge; by left). lia.
Qed.

Lemma NoDup_snoc_fresh {A} (l : list A) (x : A) : NoDup l -> x ∉ l -> NoDup (l ++ [x]).
Proof.
  intros Hl Hx. apply NoDup_app. split_and!; [done | | apply NoDup_singleton].
  by intros y Hy ->%list_elem_of_singleton.
Qed.

Lemma Forall_filter_keep {A} (P Q : A -> Prop) `{!forall x, Decision (Q x)} (l : list A) :
  Forall P l -> Forall P (filter Q l).
Proof.
  rewrite !Forall_forall. intros Hall x [_ Hx]%list_elem_of_filter. by apply Hall.
Qed.

Lemma require_role_keeps {B : Type} (P : Catalog -> Prop) (error : string -> B)
    (roles : list string) (fn : Catalog -> (B * Z) * Catalog) (key : option string)
    (c : Catalog) :
  (P c -> P (snd (fn c))) -> P c -> P (snd (require_role error roles fn key c)).
Proof.
  intros Hfn Hc. unfold require_role.
  destruct (current_user c key); [| done]. case_bool_decide; [by apply Hfn | done].
Qed.

Lemma on_tables_snd {R : Type} (fn : Database -> R * Database) (c : Catalog) :
  snd (on_tables fn c) = mkCatalog (snd (fn (tables c))) (tag_table c) (user_table c).
Proof. unfold on_tables. by destruct (fn (tables c)). Qed.

Lemma add_lineage_well_keyed (c : Catalog) (data : LineageRequest.t) :
  well_keyed c -> well_keyed (snd (on_tables (fun db => add_lineage db data) c)).
Proof.
  intros (Ha & Hp & He & Hc & Hn & Hi & Ht). rewrite on_tables_snd.
  destruct (add_lineage_cases (tables c) data) as [[_ ->] | (s & d & _ & _ & _ & _ & ->)];
    unfold well_keyed; simpl; split_and!; try done.
  rewrite map_app. apply NoDup_snoc_fresh; [done | apply next_id_fresh].
Qed.

Lemma delete_asset_well_keyed (c : Catalog) (a : Z) :
  well_keyed c -> well_keyed (snd (on_tables (fun db => delete_asset db a) c)).
Proof.
  intros (Ha & Hp & He & Hc & Hn & Hi & Ht). rewrite on_tables_snd.
  destruct (delete_asset_cases (tables c) a) as [[_ ->] | [_ ->]];
    unfold well_keyed; simpl; split_and!; try done.
  - apply (sublist_NoDup _ (map Asset.id (assets (tables c)))); [done |].
    apply fmap_sublist, sublist_filter.
  - rewrite Forall_forall in Hp. apply Forall_forall.
    intros k (x & -> & Hx)%list_elem_of_fmap. apply Hp, list_elem_of_fmap.
    exists x. split; [done |]. by apply list_elem_of_filter in Hx as [_ ?].
  - by apply Forall_filter_keep.
Qed.

Lemma score_claim_well_keyed (c : Catalog) (data : ScoreRequest.t) :
  well_keyed c -> well_keyed (snd (on_tables (fun db => score_claim db data) c)).
Proof.
  intros (Ha & Hp & He & Hc & Hn & Hi & Ht). rewrite on_tables_snd.
  destruct (score_claim_store (tables c) data) as [-> | (row & -> & Hfresh)];
    unfold well_keyed; simpl; split_and!; try done.
  rewrite map_app; simpl. by apply NoDup_snoc_fresh.
Qed.

Lemma create_tag_well_keyed (c : Catalog) (name : Py.field string) :
  well_keyed c -> well_keyed (snd (create_tag c name)).
Proof.
  intros (Ha & Hp & He & Hc & Hn & Hi & Ht). unfold create_tag.
  destruct (no_text (Py.get name)); [done |].
  destruct (Py.get name) as [n|]; [| done].
  destruct (query_tag (tag_table c) n) eqn:Hq; [done |].
  apply query_tag_None in Hq.
  unfold well_keyed; simpl; split_and!; try done.
  - rewrite map_app. by apply NoDup_snoc_fresh.
  - rewrite map_app. apply NoDup_snoc_fresh; [done | apply next_id_fresh].
  - eapply Forall_impl; [exact Ht |]. intros a [? Hreg]. split; [done |].
    eapply Forall_impl; [exact Hreg |]. intros t ?. rewrite map_app, elem_of_app. by left.
Qed.

Lemma create_asset_well_keyed (c : Catalog) (data : AssetRequest.t) (now : string) :
  well_keyed c -> well_keyed (snd (create_asset c data now)).
Proof.
  intros (Ha & Hp & He & Hc & Hn & Hi & Ht).
  destruct (create_asset_cases c data now)
    as [(_ & -> & _) | (name & type & names & _ & _ & _ & Hnd & Hcreate)]; [done |].
  simpl in Hcreate. rewrite Hcreate. unfold well_keyed; simpl.
  pose proof (loaded_tags_Permutation _ _ (insert_tags_registers (tag_table c) names))
    as Hperm.
  pose proof (insert_tags_registers (tag_table c) names) as Hreg.
  rewrite !map_app, insert_tags_names in *; simpl. split_and!; try done.
  - apply NoDup_snoc_fresh; [done | apply next_id_fresh].
  - apply Forall_app. split; [done |]. apply Forall_singleton. by apply next_id_positive.
  - apply NoDup_app. split_and!; [done | | by apply NoDup_filter].
    by intros t Hin [Hout _]%list_elem_of_filter.
  - by apply insert_tags_ids.
  - apply Forall_app. split.
    + eapply Forall_impl; [exact Ht |]. intros a [? Hreg']. split; [done |].
      eapply Forall_impl; [exact Hreg' |]. intros t ?. rewrite elem_of_app. by left.
    + apply Forall_singleton; simpl. split; [by rewrite Hperm |].
      rewrite Forall_forall in Hreg. apply Forall_forall. intros t Hin.
      apply Hreg. by rewrite <- Hperm.
Qed.

Lemma serve_well_keyed (c : Catalog) (request : option string * Call) :
  well_keyed c -> well_keyed (serve c request).
Proof.
  intros Hc. destruct request as [key []]; unfold serve; cbn [fst snd];
    unfold add_lineage_endpoint, get_lineage_endpoint, delete_asset_endpoint,
      score_claim_endpoint, list_tags_endpoint, create_tag_endpoint,
      get_asset_endpoint, list_assets_endpoint, create_asset_endpoint,
      require_edit, require_view;
    apply (require_role_keeps well_keyed); try done; intros _.
  - by apply add_lineage_well_keyed.
  - by apply delete_asset_well_keyed.
  - by apply score_claim_well_keyed.
  - by apply create_tag_well_keyed.
  - by apply create_asset_well_keyed.
Qed.

Lemma startup_well_keyed (now : string) : well_keyed (startup now empty_catalog).
Proof.
  unfold well_keyed. split_and!; apply (bool_decide_unpack _); vm_compute; exact I.
Qed.

Lemma fold_serve_well_keyed (requests : list (option string * Call)) (c : Catalog) :
  well_keyed c -> well_keyed (fold_left serve requests c).
Proof.
  revert c. induction requests as [|r requests IH]; intros c Hc; simpl; [done |].
  apply IH. by apply serve_well_keyed.
Qed.

(** X20. In every catalog reached from the seeded empty database by
    any sequence of requests to the modelled endpoints, under any keys:
    asset, edge and tag ids are unique, asset ids are at least 1, claim
    numbers and tag names are unique, and the tags of every asset are
    distinct rows of the tags table. *)
Theorem reachable_well_keyed (now : string) (requests : list (option string * Call)) :
  well_keyed (fold_left serve requests (startup now empty_catalog)).
Proof.
  generalize (startup_well_keyed now). generalize (startup now empty_catalog).
  induction requests as [|r requests IH]; intros c Hc; simpl; [done |].
  apply IH. by apply serve_well_keyed.
Qed.

(** X21. In every such catalog any two stored assets can be linked:
    [add_lineage] with their ids answers 201 (no stored asset has the id 0
    that the handler treats as missing). *)
Theorem reachable_assets_linkable (now : string) (requests : list (option string * Call))
    (s d : Z) (relation : option string) :
  let c := fold_left serve requests (startup now empty_catalog) in
  s ∈ map Asset.id (assets (tables c)) ->
  d ∈ map Asset.id (assets (tables c)) ->
  snd (fst (add_lineage (tables c) (LineageRequest.mk (Py.Given s) (Py.Given d) relation)))
  = 201.
Proof.
  intros c Hs Hd.
  destruct (fold_serve_well_keyed requests _ (startup_well_keyed now)) as (_ & Hpos & _).
  fold c in Hpos. rewrite Forall_forall in Hpos.
  assert (1 <= s) by auto. assert (1 <= d) by auto.
  rewrite (add_lineage_present (tables c)
             (LineageRequest.mk (Py.Given s) (Py.Given d) relation) s d eq_refl eq_refl)
    by lia.
  destruct (asset_get_stored _ s Hs) as (x & -> & _).
  destruct (asset_get_stored _ d Hd) as (y & -> & _). done.
Qed.

Lemma snoc_not_nil {A} (l : list A) (x : A) : l ++ [x] <> [].
Proof. by destruct l. Qed.

Lemma serve_seeded_tables (c : Catalog) (request : option string * Call) :
  seeded_tables c -> seeded_tables (serve c request).
Proof.
  intros Hc. destruct request as [key []]; unfold serve; cbn [fst snd];
    unfold add_lineage_endpoint, get_lineage_endpoint, delete_asset_endpoint,
      score_claim_endpoint, list_tags_endpoint, create_tag_endpoint,
      get_asset_endpoint, list_assets_endpoint, create_asset_endpoint,
      require_edit, require_view;
    apply (require_role_keeps seeded_tables); try done;
    intros (Hu & Ht & Hcl); rewrite ?on_tables_snd.
  - destruct (add_lineage_cases (tables c) data) as [[_ E] | (? & ? & _ & _ & _ & _ & E)];
      unfold Response in E; by rewrite E.
  - destruct (delete_asset_cases (tables c) asset_id) as [[_ E] | [_ E]];
      unfold Response in E; by rewrite E.
  - destruct (score_claim_store (tables c) data) as [E | (? & E & _)];
      unfold Response in E; rewrite E; [done |].
    split_and!; try done. apply snoc_not_nil.
  - unfold create_tag. destruct (no_text (Py.get name)); [done |].
    destruct (Py.get name); [| done]. destruct (query_tag _ _); [done |].
    split_and!; try done. apply snoc_not_nil.
  - destruct (create_asset_cases c data now)
      as [(_ & E & _) | (? & ? & names & _ & _ & _ & _ & Hcreate)];
      [unfold CatalogResponse in E; by rewrite E |].
    simpl in Hcreate. unfold CatalogResponse in Hcreate. rewrite Hcreate.
    split_and!; try done; simpl.
    destruct (insert_tags_prefix (tag_table c)
                (filter (fun t => t ∉ map Tag.name (tag_table c)) names)) as [added ->].
    by destruct (tag_table c).
Qed.

Lemma reachable_seeded_tables (now : string) (requests : list (option string * Call)) :
  seeded_tables (fold_left serve requests (startup now empty_catalog)).
Proof.
  assert (H0 : seeded_tables (startup now empty_catalog)) by (split_and!; done).
  revert H0. generalize (startup now empty_catalog).
  induction requests as [|r requests IH]; intros c Hc; simpl; [done |].
  apply IH. by apply serve_seeded_tables.
Qed.

(** X22. Restarting the application on such a catalog re-seeds
    nothing as long as one asset is left: start-up returns the catalog
    unchanged. *)
Theorem restart_changes_nothing (now now' : string)
    (requests : list (option string * Call)) :
  let c := fold_left serve requests (startup now empty_catalog) in
  assets (tables c) <> [] ->
  startup now' c = c.
Proof.
  intros c Hassets.
  destruct (reachable_seeded_tables now requests) as (Hu & Ht & Hcl). fold c in Hu, Ht, Hcl.
  unfold startup, seed_tags, seed_users, seed_demo.
  destruct c as [[a l cl] t u]; simpl in *.
  destruct u; [done |]. simpl. destruct t; [done |]. simpl.
  destruct a; [done |]. destruct cl; done.
Qed.

Ltac closed_fact := apply (bool_decide_unpack _); vm_compute; exact I.

Lemma demo_db_edges_resolved : edges_resolved demo_db.
Proof.
  intros e He. repeat (apply elem_of_cons in He as [-> | He]);
    [split; closed_fact | split; closed_fact | by apply elem_of_nil in He].
Defined.


Lemma seeded_keys_witness :
  user_table empty_catalog = []
  /\ list_tags_endpoint (Some "viewer-key-123") (seed_users empty_catalog)
     = ((TagNames [], 200), seed_users empty_catalog)
  /\ create_tag_endpoint (Some "viewer-key-123") (Py.Given "finance")
       (seed_users empty_catalog)
     = ((CatalogError "Forbidden for role: viewer", 403), seed_users empty_catalog).
Proof.
  split; [reflexivity |]. split.
  - exact (proj1 (proj2 (proj2
      (seeded_keys CatalogError (fun c => (list_tags c, c)) empty_catalog eq_refl)))).
  - exact (proj1 (proj2 (proj2 (proj2
      (seeded_keys CatalogError (fun c => create_tag c (Py.Given "finance"))
                   empty_catalog eq_refl))))).
Defined.

Lemma get_lineage_self_contained_witness :
  edges_resolved demo_db
  /\ Forall (fun x => Edge.source x ∈ map AssetDict.id (nodes_of (get_lineage demo_db 2))
                      /\ Edge.target x ∈ map AssetDict.id (nodes_of (get_lineage demo_db 2)))
            (edges_of (get_lineage demo_db 2)).
Proof.
  split; [exact demo_db_edges_resolved |].
  exact (get_lineage_self_contained demo_db 2 demo_db_edges_resolved).
Defined.

Lemma add_lineage_keeps_edges_resolved_witness :
  edges_resolved demo_db /\ edges_resolved (snd (add_lineage demo_db policy_to_reserve)).
Proof.
  split; [exact demo_db_edges_resolved |].
  exact (add_lineage_keeps_edges_resolved demo_db policy_to_reserve demo_db_edges_resolved).
Defined.

Lemma delete_asset_frame_witness :
  2 <> 1
  /\ query_asset (snd (delete_asset demo_db 1)) 2 = query_asset demo_db 2
  /\ lineage (snd (delete_asset demo_db 1)) = lineage demo_db
  /\ claims (snd (delete_asset demo_db 1)) = claims demo_db.
Proof.
  assert (H : 2 <> 1) by lia.
  split; [exact H |]. exact (delete_asset_frame demo_db 1 2 H).
Defined.

Lemma add_lineage_after_delete_refused_witness :
  LineageRequest.src_asset_id policy_to_reserve = Py.Given 1
  /\ snd (fst (add_lineage (snd (delete_asset demo_db 1)) policy_to_reserve)) <> 201
  /\ snd (add_lineage (snd (delete_asset demo_db 1)) policy_to_reserve)
     = snd (delete_asset demo_db 1).
Proof.
  split; [reflexivity |].
  exact (add_lineage_after_delete_refused demo_db 1 policy_to_reserve (or_introl eq_refl)).
Defined.

Lemma create_tag_then_list_witness :
  ("finance" ∉ map Tag.name (tag_table demo_catalog))
  /\ fst (create_tag demo_catalog (Py.Given "finance")) = (TagCreated "finance", 201)
  /\ list_tags (snd (create_tag demo_catalog (Py.Given "finance")))
     = (TagNames ["PII"; "GDPR"; "HIPAA"; "PCI"; "internal"; "public"; "finance"], 200).
Proof.
  assert (Hfresh : "finance" ∉ map Tag.name (tag_table demo_catalog)) by closed_fact.
  split; [exact Hfresh |].
  destruct (create_tag_then_list demo_catalog (Py.Given "finance") "finance" eq_refl
              ltac:(discriminate) Hfresh) as (H1 & H2 & _).
  split; [exact H1 | exact H2].
Defined.

Lemma create_asset_then_get_witness :
  NoDup ["finance"; "PII"]
  /\ exists tags rows,
       fst (create_asset demo_catalog tagged_report "2025-02-01T00:00:00")
       = (AssetBody (AssetDict.mk 4 "Finance_Report" "policy" "" "2025-02-01T00:00:00"
                                  tags), 201)
       /\ tags ≡ₚ ["finance"; "PII"]
       /\ tags = map Tag.name rows
       /\ Sorted Z.le (map Tag.id rows)
       /\ get_asset
            (tables (snd (create_asset demo_catalog tagged_report "2025-02-01T00:00:00"))) 4
          = (AssetBody (AssetDict.mk 4 "Finance_Report" "policy" "" "2025-02-01T00:00:00"
                                     tags), 200).
Proof.
  assert (Hnd : NoDup ["finance"; "PII"]) by closed_fact.
  split; [exact Hnd |].
  destruct (create_asset_then_get demo_catalog tagged_report "2025-02-01T00:00:00"
              "Finance_Report" "policy" ["finance"; "PII"] eq_refl eq_refl eq_refl Hnd)
    as (tags & rows & H1 & H2 & H3 & _ & H5 & H6 & _).
  exists tags, rows. split_and!; [exact H1 | exact H2 | exact H3 | exact H5 | exact H6].
Defined.

(** On the seeded catalog the request that names the new tag first is
    answered with the stored tag first. *)
Example create_asset_reorders_tags :
  fst (create_asset demo_catalog tagged_report "2025-02-01T00:00:00")
  = (AssetBody (AssetDict.mk 4 "Finance_Report" "policy" "" "2025-02-01T00:00:00"
                             ["PII"; "finance"]), 201).
Proof. reflexivity. Qed.

Lemma create_asset_registers_tags_witness :
  snd (fst (create_asset demo_catalog finance_report "2025-02-01T00:00:00")) = 201
  /\ exists names,
       Py.get_default (AssetRequest.tags finance_report) [] = Some names
       /\ fst (list_tags (snd (create_asset demo_catalog finance_report "2025-02-01T00:00:00")))
          = TagNames (map Tag.name (tag_table demo_catalog)
                      ++ filter (fun t => t ∉ map Tag.name (tag_table demo_catalog)) names)
       /\ (forall t, t ∈ names ->
             t ∈ map Tag.name
                   (tag_table (snd (create_asset demo_catalog finance_report
                                                 "2025-02-01T00:00:00"))))
       /\ (NoDup (map Tag.name (tag_table demo_catalog)) ->
           NoDup (map Tag.name
                    (tag_table (snd (create_asset demo_catalog finance_report
                                                  "2025-02-01T00:00:00"))))).
Proof.
  split; [reflexivity |].
  exact (create_asset_registers_tags demo_catalog finance_report "2025-02-01T00:00:00"
           eq_refl).
Defined.

Lemma reachable_assets_linkable_witness :
  (1 ∈ map Asset.id (assets (tables demo_catalog)))
  /\ (3 ∈ map Asset.id (assets (tables demo_catalog)))
  /\ snd (fst (add_lineage (tables demo_catalog)
                 (LineageRequest.mk (Py.Given 1) (Py.Given 3) None))) = 201.
Proof.
  assert (H1 : 1 ∈ map Asset.id (assets (tables demo_catalog))) by closed_fact.
  assert (H3 : 3 ∈ map Asset.id (assets (tables demo_catalog))) by closed_fact.
  split; [exact H1 | split; [exact H3 |]].
  exact (reachable_assets_linkable "2025-01-01T00:00:00" [] 1 3 None H1 H3).
Defined.

Lemma restart_changes_nothing_witness :
  assets (tables (serve demo_catalog (Some "editor-key-123", DeleteAsset 1))) <> []
  /\ startup "2026-01-01T00:00:00"
       (serve demo_catalog (Some "editor-key-123", DeleteAsset 1))
     = serve demo_catalog (Some "editor-key-123", DeleteAsset 1).
Proof.
  assert (H : assets (tables (serve demo_catalog (Some "editor-key-123", DeleteAsset 1))) <> []).
  { intros E. apply (f_equal length) in E. vm_compute in E. discriminate E. }
  split; [exact H |].
  exact (restart_changes_nothing "2025-01-01T00:00:00" "2026-01-01T00:00:00"
           [(Some "editor-key-123", DeleteAsset 1)] H).
Defined.

(** ** Deletion followed by creation *)

(** X23. Ids are reused: when the id of a deleted asset is the next one
    the assets table allocates (the asset created last, say), the next
    asset created takes that id, its answer carrying the requested tags in
    the order of their ids in the tags table, and [get_lineage] of the new
    asset lists the edges that were stored for the deleted one. *)
Theorem recreated_asset_inherits_edges (c : Catalog) (a : Z) (e : Lineage.t)
    (data : AssetRequest.t) (now name type : string) (names : list string) :
  let c1 := snd (on_tables (fun db => delete_asset db a) c) in
  let c2 := snd (create_asset c1 data now) in
  AssetRequest.name data = Py.Given name ->
  AssetRequest.type data = Py.Given type ->
  Py.get_default (AssetRequest.tags data) [] = Some names ->
  NoDup names ->
  next_id (map Asset.id (assets (tables c1))) = a ->
  e ∈ lineage (tables c) ->
  Lineage.src_asset_id e = a \/ Lineage.dst_asset_id e = a ->
  fst (create_asset c1 data now)
  = (AssetBody (AssetDict.mk a name type (default "" (AssetRequest.description data))
                             now (loaded_tags (tag_table c2) names)), 201)
  /\ loaded_tags (tag_table c2) names ≡ₚ names
  /\ edge_to_dict e ∈ edges_of (get_lineage (tables c2) a).
Proof.
  intros c1 c2 Hname Htype Htags Hnd Hnext He Hend.
  destruct (create_asset_cases c1 data now)
    as [(_ & _ & Hno) | (name' & type' & names' & Hn' & Ht' & Hg' & _ & Hcreate)].
  { exfalso. apply Hno. eauto 10. }
  assert (name' = name) as -> by congruence.
  assert (type' = type) as -> by congruence.
  assert (names' = names) as -> by congruence.
  simpl in Hcreate. subst c2. unfold CatalogResponse in *. rewrite Hcreate. simpl.
  rewrite Hnext. split; [done |].
  split; [apply loaded_tags_Permutation, insert_tags_registers |].
  assert (He' : e ∈ lineage (tables c1)).
  { subst c1. rewrite on_tables_snd. simpl. by rewrite delete_asset_keeps_lineage. }
  rewrite (get_lineage_touched _ a e); [| done | done].
  apply neighborhood_edges_iff. exists e. done.
Qed.

Lemma recreated_asset_inherits_edges_witness :
  NoDup ["finance"; "PII"]
  /\ next_id (map Asset.id
       (assets (tables (snd (on_tables (fun db => delete_asset db 3) demo_catalog))))) = 3
  /\ (Lineage.mk 2 2 3 "drives" ∈ lineage (tables demo_catalog))
  /\ fst (create_asset (snd (on_tables (fun db => delete_asset db 3) demo_catalog))
                       tagged_report "2025-02-01T00:00:00")
     = (AssetBody (AssetDict.mk 3 "Finance_Report" "policy" "" "2025-02-01T00:00:00"
                                ["PII"; "finance"]), 201)
  /\ Edge.mk 2 2 3 "drives"
     ∈ edges_of (get_lineage
         (tables (snd (create_asset
                         (snd (on_tables (fun db => delete_asset db 3) demo_catalog))
                         tagged_report "2025-02-01T00:00:00"))) 3).
Proof.
  assert (Hnd : NoDup ["finance"; "PII"]) by closed_fact.
  assert (He : Lineage.mk 2 2 3 "drives" ∈ lineage (tables demo_catalog)).
  { right. left. }
  split; [exact Hnd | split; [reflexivity | split; [exact He |]]].
  destruct (recreated_asset_inherits_edges demo_catalog 3 (Lineage.mk 2 2 3 "drives")
              tagged_report "2025-02-01T00:00:00" "Finance_Report" "policy"
              ["finance"; "PII"] eq_refl eq_refl eq_refl Hnd eq_refl He (or_intror eq_refl))
    as (H1 & _ & H3).
  split; [exact H1 | exact H3].
Defined.
